(** * Query diagnostics bundles (yb_query_diagnostics.c)

    A shallow embedding of the PostgreSQL-side query diagnostics code of
    YugabyteDB: the hash table of bundles in progress, the circular buffer
    of completed bundles, the executor-end hook that accumulates bind
    variables, the background sweep that dumps expired bundles to disk, and
    the SQL entry points that start a bundle and report its status.

    Conventions.
    - C strings are [list ascii]; a [char] array in shared memory is a list
      of fixed length read up to its first NUL ([c_str]); a local C string
      is modelled by its contents.
    - [int64] and [int] values are [Z] with the wrap-around written out.
    - [ereport(ERROR, ...)] is the [Raise] result; shared state is passed
      explicitly; the locks taken by the executor hook are recorded as a
      trace of events. *)

From Stdlib Require Import ZArith String Ascii List Lia DecimalString SpecFloat.
From stdpp Require Import gmap list strings fin_maps.

Local Open Scope Z_scope.

(** ** C strings and character arrays *)

Abbreviation cstring := (list ascii).

Definition lit (s : string) : cstring := list_ascii_of_string s.

Definition NUL : ascii := Ascii.zero.
Definition LF : ascii := "010"%char.

Definition is_nul (c : ascii) : bool := bool_decide (c = NUL).

(** [strlen]: the number of characters before the first NUL. *)
Fixpoint strlen (a : list ascii) : nat :=
  match a with
  | [] => 0%nat
  | c :: a' => if is_nul c then 0%nat else S (strlen a')
  end.

(** The C string held by a character array. *)
Definition c_str (a : list ascii) : cstring := take (strlen a) a.

(** [memcpy(dst + off, src, length src)] on a fixed-size array. *)
Definition memcpy_at (dst : list ascii) (off : nat) (src : list ascii) : list ascii :=
  list_inserts off src dst.

(** [MemSet(a, 0, n)] *)
Definition zeroed (n : nat) : list ascii := replicate n NUL.

(** [snprintf(dst, size, ...)]: the formatted C string cut to [size - 1]. *)
Definition snprintf (size : nat) (formatted : list ascii) : cstring :=
  take (size - 1) (c_str formatted).

(** [appendStringInfo(buf, ...)]: the formatted C string is appended. *)
Definition appendStringInfo (buf : cstring) (formatted : list ascii) : cstring :=
  buf ++ c_str formatted.

Definition no_nul (s : list ascii) : Prop := Forall (λ c, c ≠ NUL) s.

(** ** Machine integers *)

Definition to_int64 (z : Z) : Z := (z + 2 ^ 63) `mod` 2 ^ 64 - 2 ^ 63.
Definition to_int32 (z : Z) : Z := (z + 2 ^ 31) `mod` 2 ^ 32 - 2 ^ 31.
Definition to_uint32 (z : Z) : Z := z `mod` 2 ^ 32.
Definition to_size_t (z : Z) : Z := z `mod` 2 ^ 64.

Definition in_int64 (z : Z) : Prop := - 2 ^ 63 ≤ z < 2 ^ 63.

(** The [%d] and [%ld] conversions. *)
Definition fmt_d (z : Z) : cstring := lit (NilZero.string_of_int (Z.to_int z)).

(** The object representation of an [int64] (little endian). *)
Definition int64_bytes (z : Z) : list Z :=
  (λ i : nat, Z.land (Z.shiftr (z `mod` 2 ^ 64) (8 * Z.of_nat i)) 255) <$> seq 0 8.

(** ** The [%lf] conversion of a [double]

    The C library prints a double in decimal notation with six digits after
    the point, the exact value rounded to nearest, ties to even. *)

Definition div_round_even (n d : Z) : Z :=
  let q := n / d in
  let r := n `mod` d in
  match (2 * r ?= d) with
  | Lt => q
  | Gt => q + 1
  | Eq => if Z.even q then q else q + 1
  end.

(** [|m * 2^e| * 10^6] rounded to an integer. *)
Definition micro_units (m : positive) (e : Z) : Z :=
  if 0 <=? e then Z.pos m * 2 ^ e * 1000000
  else div_round_even (Z.pos m * 1000000) (2 ^ (- e)).

Definition pad6 (s : cstring) : cstring :=
  replicate (6 - length s) "0"%char ++ s.

Definition fmt_fixed6 (neg : bool) (q : Z) : cstring :=
  (if neg then lit "-" else []) ++
  fmt_d (q / 1000000) ++ lit "." ++ pad6 (fmt_d (q `mod` 1000000)).

Definition fmt_lf (x : spec_float) : cstring :=
  match x with
  | S754_zero s => fmt_fixed6 s 0
  | S754_infinity s => (if s then lit "-" else []) ++ lit "inf"
  | S754_nan => lit "nan"
  | S754_finite s m e => fmt_fixed6 s (micro_units m e)
  end.

(** [(double) z] for an integer [z]. *)
Definition int_to_double (z : Z) : spec_float := binary_normalize 53 1024 z 0 false.

(** [a <= b] on doubles. *)
Definition double_le (a b : spec_float) : bool := SFleb a b.

(** The double nearest to 12.3. *)
Definition double_12_3 : spec_float := S754_finite false 6924284427082138 (-49).

(** ** Errors

    [ereport(ERROR, ...)] leaves the function; the result carries the error
    code and message. *)

Inductive sqlstate :=
  | ERRCODE_INVALID_PARAMETER_VALUE
  | ERRCODE_DUPLICATE_OBJECT
  | ERRCODE_OBJECT_NOT_IN_PREREQUISITE_STATE
  | ERRCODE_PROGRAM_LIMIT_EXCEEDED
  | ERRCODE_FEATURE_NOT_SUPPORTED
  | ERRCODE_INTERNAL_ERROR
  | ERRCODE_OUT_OF_MEMORY.

Record ErrorData := { sqlerrcode : sqlstate; message : cstring }.

Inductive result (A : Type) :=
  | Ok (a : A)
  | Raise (e : ErrorData).
Arguments Ok {A} a.
Arguments Raise {A} e.

Definition ereport {A} (code : sqlstate) (errmsg : cstring) : result A :=
  Raise {| sqlerrcode := code; message := errmsg |}.

Definition is_error {A} (r : result A) : bool :=
  match r with Ok _ => false | Raise _ => true end.

Definition raises {A} (r : result A) (code : sqlstate) : Prop :=
  exists msg, r = ereport code msg.

(** ** Data model *)

(** Modelled from the spec: the struct declarations of
    yb_query_diagnostics.h are not among the sources; the integer fields
    hold the [int64] values that [FetchParams] stores in them. *)
Record YbQueryDiagnosticsParams := {
  query_id : Z;
  diagnostics_interval_sec : Z;
  explain_sample_rate : Z;
  explain_analyze : bool;
  explain_dist : bool;
  explain_debug : bool;
  bind_var_query_min_duration_ms : Z;
}.

Record YbQueryDiagnosticsMetadata := {
  params : YbQueryDiagnosticsParams;
  start_time : Z;               (* TimestampTz: microseconds *)
  path : cstring;               (* char path[MAXPGPATH] *)
}.

Record YbQueryDiagnosticsEntry := {
  metadata : YbQueryDiagnosticsMetadata;
  bind_vars : list ascii;       (* char bind_vars[YB_QD_MAX_BIND_VARS_LEN] *)
}.

Definition DIAGNOSTICS_SUCCESS : Z := 0.
Definition DIAGNOSTICS_IN_PROGRESS : Z := 1.
Definition DIAGNOSTICS_ERROR : Z := 2.
Definition DESCRIPTION_LEN : nat := 128.

(** Microseconds per second (datatype/timestamp.h): a [TimestampTz] counts
    microseconds, as the note on [HasBundleExpired] says. *)
Definition USECS_PER_SEC : Z := 1000000.

Record BundleInfo := {
  bundle_metadata : YbQueryDiagnosticsMetadata;
  bundle_status : Z;
  bundle_description : list ascii;   (* char description[DESCRIPTION_LEN] *)
}.

Record YbQueryDiagnosticsBundles := {
  index : Z;
  max_entries : Z;
  bundles : list BundleInfo;
}.

Definition status_msg : list cstring :=
  [lit "Success"; lit "In Progress"; lit "Error"].

(** The shared memory of the module: the hash table [bundles_in_progress],
    keyed by query id, and the circular buffer [bundles_completed]. *)
Record Shmem := {
  bundles_in_progress : gmap Z YbQueryDiagnosticsEntry;
  bundles_completed : YbQueryDiagnosticsBundles;
}.

Definition set_in_progress (t : gmap Z YbQueryDiagnosticsEntry) (sh : Shmem) : Shmem :=
  {| bundles_in_progress := t; bundles_completed := bundles_completed sh |}.

Definition set_completed (r : YbQueryDiagnosticsBundles) (sh : Shmem) : Shmem :=
  {| bundles_in_progress := bundles_in_progress sh; bundles_completed := r |}.

(** The files of the data directory: path to contents. *)
Abbreviation FileSystem := (gmap (list ascii) (list ascii)).

(** Outcomes of the file calls of [DumpToFile]: a non-negative return, a
    negative return (with the text [%m] expands to), or an error raised
    inside the call (with its message). *)
Inductive open_outcome :=
  | OpenOk
  | OpenFails (strerror : cstring)
  | OpenRaises (msg : cstring).

Inductive write_outcome :=
  | WriteReturns (written : nat)
  | WriteFails (strerror : cstring)
  | WriteRaises (msg : cstring).

(** A bound parameter of a query ([ParamExternData]). *)
Record ParamExternData := {
  value : Z;          (* Datum *)
  isnull : bool;
  ptype : Z;          (* Oid *)
}.

(** What the executor hook reads from its [QueryDesc]. *)
Record QueryDesc := {
  queryId : Z;                               (* uint64 *)
  totaltime_ms : spec_float;                 (* INSTR_TIME_GET_MILLISEC *)
  query_params : option (list ParamExternData);
}.

(** The arguments of the SQL function [yb_query_diagnostics]. *)
Record FunctionCallInfo := {
  PG_ARG0 : Z; PG_ARG1 : Z; PG_ARG2 : Z;
  PG_ARG3 : bool; PG_ARG4 : bool; PG_ARG5 : bool;
  PG_ARG6 : Z;
}.

(** ** The host: constants and functions of PostgreSQL that the module calls

    None of these is defined in yb_query_diagnostics.c. *)
Class Host := {
  MAXPGPATH : nat;
  YB_QD_MAX_BIND_VARS_LEN : nat;
  sizeof_BundleInfo : Z;
  yb_query_diagnostics_circular_buffer_size : Z;     (* GUC, in kB *)
  DataDir : list ascii;
  YBIsQueryDiagnosticsEnabled : bool;
  (* hash_any: a uint32 from the bytes of the key *)
  hash_any : list Z -> Z;
  (* hash_search(HASH_ENTER): whether a new element can be allocated *)
  hash_enter_room : gmap Z YbQueryDiagnosticsEntry -> bool;
  (* hash_seq_search: the order in which a scan returns the entries *)
  hash_seq : gmap Z YbQueryDiagnosticsEntry -> list (Z * YbQueryDiagnosticsEntry);
  hash_seq_complete : forall t, hash_seq t ≡ₚ map_to_list t;
  getTypeOutputInfo : Z -> Z;
  OidOutputFunctionCall : Z -> Z -> list ascii;
  (* pg_mkdir_p(path) != -1 || errno == EEXIST *)
  pg_mkdir_p_ok : list ascii -> bool;
  PathNameOpenFile : list ascii -> open_outcome;
  FileWrite : list ascii -> list ascii -> write_outcome;
}.

(** A row of the view [yb_query_diagnostics_status]. *)
Inductive JsonbValue :=
  | jbvNumeric (n : Z)
  | jbvBool (b : bool).

Abbreviation Jsonb := (list (cstring * JsonbValue)).

Record StatusRow := {
  row_status : cstring;
  row_description : cstring;
  row_query_id : Z;
  row_start_time : Z;
  row_diagnostics_interval_sec : Z;
  row_bind_var_query_min_duration_ms : Z;
  row_explain_params : Jsonb;
  row_path : cstring;
}.

(** What [yb_get_query_diagnostics_status] checks of its calling context. *)
Record ReturnSetInfo := {
  rsinfo_is_set : bool;             (* rsinfo != NULL && IsA(rsinfo, ReturnSetInfo) *)
  allows_materialize : bool;        (* allowedModes & SFRM_Materialize *)
  result_is_composite : bool;       (* get_call_result_type == TYPEFUNC_COMPOSITE *)
}.

(** Locks and the events of the executor hook. *)
Inductive lock :=
  | bundles_in_progress_lock
  | entry_mutex (key : Z).

Inductive lock_mode := LW_SHARED | LW_EXCLUSIVE.

Inductive event :=
  | EvLWLockAcquire (l : lock) (m : lock_mode)
  | EvLWLockRelease (l : lock)
  | EvSpinLockAcquire (l : lock)
  | EvSpinLockRelease (l : lock)
  | EvFormatParams
  | EvNextExecutorEnd.

Global Instance lock_eq_dec : EqDecision lock.
Proof. solve_decision. Defined.
Global Instance lock_mode_eq_dec : EqDecision lock_mode.
Proof. solve_decision. Defined.

(** The locks held after a trace of events. *)
Definition held_after_event (held : list (lock * lock_mode)) (e : event)
  : list (lock * lock_mode) :=
  match e with
  | EvLWLockAcquire l m => (l, m) :: held
  | EvSpinLockAcquire l => (l, LW_EXCLUSIVE) :: held
  | EvLWLockRelease l | EvSpinLockRelease l =>
      filter (λ lm, lm.1 ≠ l) held
  | EvFormatParams | EvNextExecutorEnd => held
  end.

Definition locks_held (tr : list event) : list (lock * lock_mode) :=
  foldl held_after_event [] tr.

(** ** The operations *)

Section Operations.
Context `{Host}.

(** [yb_query_diagnostics_circular_buffer_size * 1024 / sizeof(BundleInfo)]:
    the product is computed as an [int], converted to [size_t] for the
    division by [sizeof(BundleInfo)], and the quotient is returned as an
    [int]. *)
Definition CircularBufferMaxEntries : Z :=
  to_int32
    (to_size_t (to_int32 (yb_query_diagnostics_circular_buffer_size * 1024))
     / sizeof_BundleInfo).

(** A [BundleInfo] of zero bytes. *)
Definition zero_BundleInfo : BundleInfo := {|
  bundle_metadata := {|
    params := {| query_id := 0; diagnostics_interval_sec := 0;
                 explain_sample_rate := 0; explain_analyze := false;
                 explain_dist := false; explain_debug := false;
                 bind_var_query_min_duration_ms := 0 |};
    start_time := 0;
    path := [] |};
  bundle_status := 0;
  bundle_description := zeroed DESCRIPTION_LEN |}.

(** [YbQueryDiagnosticsShmemInit], first time through: an empty hash table
    and a circular buffer of zero bytes. *)
Definition YbQueryDiagnosticsShmemInit : Shmem := {|
  bundles_in_progress := ∅;
  bundles_completed := {|
    index := 0;
    max_entries := CircularBufferMaxEntries;
    bundles := replicate (Z.to_nat CircularBufferMaxEntries) zero_BundleInfo |} |}.

(** [InsertCompletedBundleInfo]: writes the slot under the cursor and
    advances the cursor. The description is copied without its terminator:
    [memcpy(sample->description, description, strlen(description))]. *)
Definition InsertCompletedBundleInfo (md : YbQueryDiagnosticsMetadata) (status : Z)
    (description : cstring) (r : YbQueryDiagnosticsBundles) : YbQueryDiagnosticsBundles :=
  let write (sample : BundleInfo) := {|
    bundle_metadata := md;
    bundle_status := status;
    bundle_description := memcpy_at (bundle_description sample) 0 (c_str description) |} in
  let next := to_int32 (index r + 1) in
  {| index := if bool_decide (next = max_entries r) then 0 else next;
     max_entries := max_entries r;
     bundles := alter write (Z.to_nat (index r)) (bundles r) |}.

Definition CreateJsonb (p : YbQueryDiagnosticsParams) : Jsonb :=
  [ (lit "explain_sample_rate", jbvNumeric (explain_sample_rate p));
    (lit "explain_analyze", jbvBool (explain_analyze p));
    (lit "explain_dist", jbvBool (explain_dist p));
    (lit "explain_debug", jbvBool (explain_debug p)) ].

Definition OutputBundle (md : YbQueryDiagnosticsMetadata) (description status : cstring)
  : StatusRow := {|
  row_status := status;
  row_description := description;
  row_query_id := query_id (params md);
  row_start_time := start_time md;
  row_diagnostics_interval_sec := diagnostics_interval_sec (params md);
  row_bind_var_query_min_duration_ms := bind_var_query_min_duration_ms (params md);
  row_explain_params := CreateJsonb (params md);
  row_path := path md |}.

(** [status_msg[i]] *)
Definition status_text (i : Z) : cstring := default [] (status_msg !! Z.to_nat i).

Definition ProcessActiveBundles (t : gmap Z YbQueryDiagnosticsEntry) : list StatusRow :=
  (λ ke, OutputBundle (metadata ke.2) [] (status_text DIAGNOSTICS_IN_PROGRESS))
    <$> hash_seq t.

(** One iteration of the loop of [ProcessCompletedBundles]. *)
Definition output_completed (sample : BundleInfo) : option StatusRow :=
  if bool_decide (query_id (params (bundle_metadata sample)) ≠ 0)
  then Some (OutputBundle (bundle_metadata sample)
               (c_str (bundle_description sample))
               (status_text (bundle_status sample)))
  else None.

Definition ProcessCompletedBundles (r : YbQueryDiagnosticsBundles) : list StatusRow :=
  omap output_completed (take (Z.to_nat (max_entries r)) (bundles r)).

Definition yb_get_query_diagnostics_status (rsinfo : ReturnSetInfo) (sh : Shmem)
  : result (list StatusRow) :=
  if negb YBIsQueryDiagnosticsEnabled then
    ereport ERRCODE_OBJECT_NOT_IN_PREREQUISITE_STATE
      (lit "TEST_yb_enable_query_diagnostics gflag must be true")
  else if negb (rsinfo_is_set rsinfo) then
    ereport ERRCODE_FEATURE_NOT_SUPPORTED
      (lit "set-valued function called in context that cannot accept a set")
  else if negb (allows_materialize rsinfo) then
    ereport ERRCODE_FEATURE_NOT_SUPPORTED
      (lit "materialize mode required, but it is not allowed in this context")
  else if negb (result_is_composite rsinfo) then
    ereport ERRCODE_INTERNAL_ERROR (lit "return type must be a row type")
  else
    Ok (ProcessActiveBundles (bundles_in_progress sh)
        ++ ProcessCompletedBundles (bundles_completed sh)).

(** [FormatParams]: a null parameter appends [NULL], any other parameter
    appends its text and a comma. *)
Fixpoint FormatParams (buf : cstring) (ps : list ParamExternData) : cstring :=
  match ps with
  | [] => buf
  | p :: ps' =>
      let buf' :=
        if isnull p then appendStringInfo buf (lit "NULL")
        else
          let typoutput := getTypeOutputInfo (ptype p) in
          let val := OidOutputFunctionCall typoutput (value p) in
          appendStringInfo buf (c_str val ++ lit ",")
      in FormatParams buf' ps'
  end.

(** The line that [AccumulateBindVariables] builds for a sample. *)
Definition bind_variables_line (totaltime : spec_float) (ps : list ParamExternData)
  : cstring :=
  appendStringInfo (FormatParams [] ps) (fmt_lf totaltime ++ [LF]).

Definition AccumulateBindVariables (entry : YbQueryDiagnosticsEntry)
    (totaltime : spec_float) (ps : list ParamExternData)
  : YbQueryDiagnosticsEntry * list event :=
  let mutex := entry_mutex (query_id (params (metadata entry))) in
  let is_full :=
    bool_decide (strlen (bind_vars entry) = (YB_QD_MAX_BIND_VARS_LEN - 1)%nat) in
  if is_full then (entry, [EvSpinLockAcquire mutex; EvSpinLockRelease mutex])
  else
    let buf := bind_variables_line totaltime ps in
    let entry' :=
      if bool_decide (strlen (bind_vars entry) + length buf < YB_QD_MAX_BIND_VARS_LEN)%nat
      then {| metadata := metadata entry;
              bind_vars := memcpy_at (bind_vars entry) (strlen (bind_vars entry)) buf |}
      else entry in
    (entry', [EvSpinLockAcquire mutex; EvSpinLockRelease mutex;
              EvFormatParams;
              EvSpinLockAcquire mutex; EvSpinLockRelease mutex]).

Definition YbQueryDiagnostics_ExecutorEnd (queryDesc : QueryDesc) (sh : Shmem)
  : Shmem * list event :=
  let key := to_int64 (queryId queryDesc) in
  let t := bundles_in_progress sh in
  let '(t', evs) :=
    match t !! key with
    | Some entry =>
        match query_params queryDesc with
        | Some ps =>
            if double_le
                 (int_to_double (bind_var_query_min_duration_ms (params (metadata entry))))
                 (totaltime_ms queryDesc)
            then
              let '(entry', evs) :=
                AccumulateBindVariables entry (totaltime_ms queryDesc) ps in
              (<[key := entry']> t, evs)
            else (t, [])
        | None => (t, [])
        end
    | None => (t, [])
    end in
  (set_in_progress t' sh,
   [EvLWLockAcquire bundles_in_progress_lock LW_SHARED] ++ evs ++
   [EvLWLockRelease bundles_in_progress_lock; EvNextExecutorEnd]).

(** The hook without its trace. *)
Definition ExecutorEnd_state (queryDesc : QueryDesc) (sh : Shmem) : Shmem :=
  (YbQueryDiagnostics_ExecutorEnd queryDesc sh).1.

Definition InsertNewBundleInfo (md : YbQueryDiagnosticsMetadata) (sh : Shmem)
  : Shmem * result unit :=
  let key := query_id (params md) in
  let t := bundles_in_progress sh in
  match t !! key with
  | Some _ =>
      (sh, ereport ERRCODE_DUPLICATE_OBJECT
             (lit "Query diagnostics for query_id[ " ++ fmt_d key ++
              lit " ] is already being generated"))
  | None =>
      if hash_enter_room t then
        let entry := {| metadata := md; bind_vars := zeroed YB_QD_MAX_BIND_VARS_LEN |} in
        (set_in_progress (<[key := entry]> t) sh, Ok tt)
      else (sh, ereport ERRCODE_OUT_OF_MEMORY (lit "out of shared memory"))
  end.

Definition HasBundleExpired (entry : YbQueryDiagnosticsEntry) (current_time : Z) : bool :=
  current_time >=?
    to_int64 (start_time (metadata entry) +
              to_int64 (diagnostics_interval_sec (params (metadata entry)) * USECS_PER_SEC)).

(** [data[0] == '\0'] *)
Definition starts_with_nul (data : list ascii) : bool :=
  match data with
  | [] => true
  | c :: _ => is_nul c
  end.

Definition DumpToFile (dir file_name : cstring) (data : list ascii) (description : cstring)
    (fs : FileSystem) : FileSystem * Z * cstring :=
  let file_path_len := (MAXPGPATH + length file_name + 1)%nat in
  if starts_with_nul data then
    (fs, DIAGNOSTICS_SUCCESS, snprintf DESCRIPTION_LEN (lit "No data captured"))
  else
    let file_path := snprintf file_path_len (dir ++ lit "/" ++ file_name) in
    let '(fs', description') :=
      match PathNameOpenFile file_path with
      | OpenRaises msg => (fs, snprintf DESCRIPTION_LEN msg)
      | OpenFails m =>
          (fs, snprintf DESCRIPTION_LEN
                 (lit "out of file descriptors: " ++ c_str m ++ lit "; release and retry"))
      | OpenOk =>
          let created := <[file_path := []]> fs in
          match FileWrite file_path (c_str data) with
          | WriteReturns n => (<[file_path := take n (c_str data)]> created, description)
          | WriteFails m =>
              (created, snprintf DESCRIPTION_LEN (lit "Error writing to file; " ++ c_str m))
          | WriteRaises msg => (created, snprintf DESCRIPTION_LEN msg)
          end
      end in
    (fs', if starts_with_nul description' then DIAGNOSTICS_SUCCESS else DIAGNOSTICS_ERROR,
     description').

(** The body of the scan of [RemoveExpiredEntries] for one entry. *)
Definition RemoveExpiredEntry (current_time : Z) (st : Shmem * FileSystem)
    (entry : YbQueryDiagnosticsEntry) : Shmem * FileSystem :=
  let '(sh, fs) := st in
  if HasBundleExpired entry current_time then
    let bind_var_copy := bind_vars entry in
    let metadata_copy := metadata entry in
    let description : cstring := [] in
    let '(fs', status, description') :=
      if negb (pg_mkdir_p_ok (path metadata_copy)) then
        (fs, DIAGNOSTICS_ERROR,
         snprintf DESCRIPTION_LEN (lit "Failed to create query diagnostics directory"))
      else
        DumpToFile (path metadata_copy) (lit "bind_variables.csv")
          bind_var_copy description fs in
    let completed :=
      InsertCompletedBundleInfo metadata_copy status description' (bundles_completed sh) in
    let t' := delete (query_id (params metadata_copy)) (bundles_in_progress sh) in
    ({| bundles_in_progress := t'; bundles_completed := completed |}, fs')
  else st.

Definition RemoveExpiredEntries (current_time : Z) (st : Shmem * FileSystem)
  : Shmem * FileSystem :=
  foldl (λ st ke, RemoveExpiredEntry current_time st ke.2) st
    (hash_seq (bundles_in_progress st.1)).

Definition ConstructDiagnosticsPath (md : YbQueryDiagnosticsMetadata)
  : result YbQueryDiagnosticsMetadata :=
  let rand_num := to_int32 (to_uint32 (hash_any (int64_bytes (start_time md)))) in
  let formatted :=
    c_str DataDir ++ lit "/" ++ lit "query-diagnostics" ++ lit "/" ++
    fmt_d (query_id (params md)) ++ lit "/" ++ fmt_d rand_num ++ lit "/" in
  if bool_decide (MAXPGPATH ≤ length formatted)%nat then
    ereport ERRCODE_PROGRAM_LIMIT_EXCEEDED (lit "Path to pg_data is too long")
  else
    Ok {| params := params md; start_time := start_time md; path := formatted |}.

Definition FetchParams (fcinfo : FunctionCallInfo) : result YbQueryDiagnosticsParams :=
  let p := {| query_id := PG_ARG0 fcinfo;
              diagnostics_interval_sec := PG_ARG1 fcinfo;
              explain_sample_rate := PG_ARG2 fcinfo;
              explain_analyze := PG_ARG3 fcinfo;
              explain_dist := PG_ARG4 fcinfo;
              explain_debug := PG_ARG5 fcinfo;
              bind_var_query_min_duration_ms := PG_ARG6 fcinfo |} in
  if query_id p =? 0 then
    ereport ERRCODE_INVALID_PARAMETER_VALUE (lit "there cannot be a query with query_id 0")
  else if diagnostics_interval_sec p <=? 0 then
    ereport ERRCODE_INVALID_PARAMETER_VALUE
      (lit "diagnostics_interval_sec should be greater than 0")
  else if (explain_sample_rate p <? 0) || (explain_sample_rate p >? 100) then
    ereport ERRCODE_INVALID_PARAMETER_VALUE
      (lit "explain_sample_rate should be between 0 and 100")
  else if bind_var_query_min_duration_ms p <? 0 then
    ereport ERRCODE_INVALID_PARAMETER_VALUE
      (lit "bind_var_query_min_duration_ms cannot be less than 0")
  else Ok p.

(** [yb_query_diagnostics]; [now] is what [GetCurrentTimestamp] returns. *)
Definition yb_query_diagnostics (now : Z) (fcinfo : FunctionCallInfo) (sh : Shmem)
  : Shmem * result cstring :=
  if negb YBIsQueryDiagnosticsEnabled then
    (sh, ereport ERRCODE_OBJECT_NOT_IN_PREREQUISITE_STATE
           (lit "query diagnostics is not enabled"))
  else
    match FetchParams fcinfo with
    | Raise e => (sh, Raise e)
    | Ok p =>
        match ConstructDiagnosticsPath {| params := p; start_time := now; path := [] |} with
        | Raise e => (sh, Raise e)
        | Ok md =>
            match InsertNewBundleInfo md sh with
            | (sh', Raise e) => (sh', Raise e)
            | (sh', Ok _) => (sh', Ok (path md))
            end
        end
    end.

End Operations.

(** ** The background worker

    [YbQueryDiagnosticsMain] waits on its latch, and on every wake-up handles
    SIGHUP and sweeps the expired bundles, until SIGTERM has been received.
    The signal handlers only set a flag (and the latch). A run of the worker
    is driven by the signals handled before the loop is entered and the list
    of its wake-ups. *)

Record WorkerFlags := {
  got_sigterm : bool;
  got_sighup : bool;
}.

Inductive signal := SIGHUP | SIGTERM.

Definition YbQueryDiagnosticsBgWorkerSighup (flags : WorkerFlags) : WorkerFlags :=
  {| got_sigterm := got_sigterm flags; got_sighup := true |}.

Definition YbQueryDiagnosticsBgWorkerSigterm (flags : WorkerFlags) : WorkerFlags :=
  {| got_sigterm := true; got_sighup := got_sighup flags |}.

Definition deliver (flags : WorkerFlags) (sig : signal) : WorkerFlags :=
  match sig with
  | SIGHUP => YbQueryDiagnosticsBgWorkerSighup flags
  | SIGTERM => YbQueryDiagnosticsBgWorkerSigterm flags
  end.

(** One return of [WaitLatch]: the signals handled until the worker tests
    [got_sighup], whether the postmaster has died, the time read by the
    sweep, and the signals handled during the rest of the iteration. *)
Record WakeUp := {
  signals_before : list signal;
  postmaster_death : bool;           (* rc & WL_POSTMASTER_DEATH *)
  sweep_time : Z;                    (* GetCurrentTimestamp() *)
  signals_during : list signal;
}.

Inductive worker_status :=
  | Waiting                          (* in WaitLatch, no wake-up left *)
  | Exited (code : Z).               (* proc_exit(code) *)

Record Worker := {
  worker_status_of : worker_status;
  worker_flags : WorkerFlags;
  worker_state : Shmem * FileSystem;
  config_reloads : nat;              (* calls of ProcessConfigFile(PGC_SIGHUP) *)
}.

Section Worker.
Context `{Host}.

Fixpoint YbQueryDiagnosticsMain_loop (wakes : list WakeUp) (flags : WorkerFlags)
    (st : Shmem * FileSystem) (reloads : nat) : Worker :=
  if got_sigterm flags then
    {| worker_status_of := Exited 0; worker_flags := flags;
       worker_state := st; config_reloads := reloads |}
  else
    match wakes with
    | [] =>
        {| worker_status_of := Waiting; worker_flags := flags;
           worker_state := st; config_reloads := reloads |}
    | w :: wakes' =>
        let flags := foldl deliver flags (signals_before w) in
        if postmaster_death w then
          {| worker_status_of := Exited 1; worker_flags := flags;
             worker_state := st; config_reloads := reloads |}
        else
          let '(flags, reloads) :=
            if got_sighup flags
            then ({| got_sigterm := got_sigterm flags; got_sighup := false |}, S reloads)
            else (flags, reloads) in
          let st := RemoveExpiredEntries (sweep_time w) st in
          let flags := foldl deliver flags (signals_during w) in
          YbQueryDiagnosticsMain_loop wakes' flags st reloads
    end.

(** [startup] are the signals handled between
    [BackgroundWorkerUnblockSignals] and the first test of [got_sigterm]. *)
Definition YbQueryDiagnosticsMain (startup : list signal) (wakes : list WakeUp)
    (st : Shmem * FileSystem) : Worker :=
  let flags := foldl deliver {| got_sigterm := false; got_sighup := false |} startup in
  YbQueryDiagnosticsMain_loop wakes flags st 0.

End Worker.

(** ** A concrete host

    A host to run the operations on: the usual sizes, a data directory, the
    output functions of [int4] and [text], and a file system whose calls
    succeed. *)

Definition int4_oid : Z := 23.
Definition text_oid : Z := 25.
Definition int4out_oid : Z := 43.
Definition textout_oid : Z := 47.

(** The [text] value at address [4096] is the string [a]. *)
Definition sample_text_datum : Z := 4096.

Definition sample_getTypeOutputInfo (ptype : Z) : Z :=
  if ptype =? int4_oid then int4out_oid
  else if ptype =? text_oid then textout_oid
  else 0.

Definition sample_OidOutputFunctionCall (typoutput datum : Z) : list ascii :=
  if typoutput =? int4out_oid then fmt_d (to_int32 datum)
  else if (typoutput =? textout_oid) && (datum =? sample_text_datum) then lit "a"
  else [].

Definition sample_hash_any (bytes : list Z) : Z :=
  foldr (λ b acc, (b + 31 * acc) `mod` 2 ^ 32) 7 bytes.

Definition sample_host (buffer_kb : Z) (mkdir_ok : bool) : Host := {|
  MAXPGPATH := 1024;
  YB_QD_MAX_BIND_VARS_LEN := 2048;
  sizeof_BundleInfo := 1208;
  yb_query_diagnostics_circular_buffer_size := buffer_kb;
  DataDir := lit "/pgdata";
  YBIsQueryDiagnosticsEnabled := true;
  hash_any := sample_hash_any;
  hash_enter_room := λ t, bool_decide (size t < 100)%nat;
  hash_seq := map_to_list;
  hash_seq_complete := λ t, reflexivity (map_to_list t);
  getTypeOutputInfo := sample_getTypeOutputInfo;
  OidOutputFunctionCall := sample_OidOutputFunctionCall;
  pg_mkdir_p_ok := λ _, mkdir_ok;
  PathNameOpenFile := λ _, OpenOk;
  FileWrite := λ _ data, WriteReturns (length data);
|}.

(** A host with a small bind variable buffer. *)
Definition small_buffer_host (len : nat) : Host := {|
  MAXPGPATH := 1024;
  YB_QD_MAX_BIND_VARS_LEN := len;
  sizeof_BundleInfo := 1208;
  yb_query_diagnostics_circular_buffer_size := 4;
  DataDir := lit "/pgdata";
  YBIsQueryDiagnosticsEnabled := true;
  hash_any := sample_hash_any;
  hash_enter_room := λ t, bool_decide (size t < 100)%nat;
  hash_seq := map_to_list;
  hash_seq_complete := λ t, reflexivity (map_to_list t);
  getTypeOutputInfo := sample_getTypeOutputInfo;
  OidOutputFunctionCall := sample_OidOutputFunctionCall;
  pg_mkdir_p_ok := λ _, true;
  PathNameOpenFile := λ _, OpenOk;
  FileWrite := λ _ data, WriteReturns (length data);
|}.

Definition sample_params (qid : Z) : YbQueryDiagnosticsParams := {|
  query_id := qid;
  diagnostics_interval_sec := 5;
  explain_sample_rate := 10;
  explain_analyze := true;
  explain_dist := false;
  explain_debug := false;
  bind_var_query_min_duration_ms := 0 |}.

Definition sample_fcinfo (qid : Z) : FunctionCallInfo := {|
  PG_ARG0 := qid; PG_ARG1 := 5; PG_ARG2 := 10;
  PG_ARG3 := true; PG_ARG4 := false; PG_ARG5 := false;
  PG_ARG6 := 0 |}.

Definition with_sample_rate (rate : Z) (fcinfo : FunctionCallInfo) : FunctionCallInfo := {|
  PG_ARG0 := PG_ARG0 fcinfo; PG_ARG1 := PG_ARG1 fcinfo; PG_ARG2 := rate;
  PG_ARG3 := PG_ARG3 fcinfo; PG_ARG4 := PG_ARG4 fcinfo; PG_ARG5 := PG_ARG5 fcinfo;
  PG_ARG6 := PG_ARG6 fcinfo |}.

Definition sample_metadata (qid start : Z) : YbQueryDiagnosticsMetadata := {|
  params := sample_params qid;
  start_time := start;
  path := lit "/pgdata/query-diagnostics/" ++ fmt_d qid ++ lit "/1/" |}.

Definition int4_param (n : Z) : ParamExternData :=
  {| value := n; isnull := false; ptype := int4_oid |}.
Definition text_param_a : ParamExternData :=
  {| value := sample_text_datum; isnull := false; ptype := text_oid |}.
Definition null_param : ParamExternData :=
  {| value := 0; isnull := true; ptype := int4_oid |}.

(** ** Notions used to state the properties *)

(** A completed bundle as [RemoveExpiredEntries] hands it to
    [InsertCompletedBundleInfo]: metadata, status, description. *)
Abbreviation completed := (YbQueryDiagnosticsMetadata * Z * cstring)%type.

Definition insert_completed (r : YbQueryDiagnosticsBundles) (c : completed)
  : YbQueryDiagnosticsBundles :=
  InsertCompletedBundleInfo c.1.1 c.1.2 c.2 r.

Definition insert_all_completed (r : YbQueryDiagnosticsBundles) (cs : list completed)
  : YbQueryDiagnosticsBundles :=
  foldl insert_completed r cs.

(** The row that reports a completed bundle with the description it was
    recorded with. *)
Definition completed_row (c : completed) : StatusRow :=
  OutputBundle c.1.1 c.2 (status_text c.1.2).

Definition without_description (row : StatusRow) : StatusRow := {|
  row_status := row_status row;
  row_description := [];
  row_query_id := row_query_id row;
  row_start_time := row_start_time row;
  row_diagnostics_interval_sec := row_diagnostics_interval_sec row;
  row_bind_var_query_min_duration_ms := row_bind_var_query_min_duration_ms row;
  row_explain_params := row_explain_params row;
  row_path := row_path row |}.

(** The circular buffer as [YbQueryDiagnosticsShmemInit] sizes it: the
    cursor inside the array, the array of [max_entries] slots. *)
Definition ring_wf (r : YbQueryDiagnosticsBundles) : Prop :=
  0 ≤ index r < max_entries r ∧ max_entries r < 2 ^ 31 ∧
  length (bundles r) = Z.to_nat (max_entries r).

(** Every entry of the hash table is stored under its own query id. *)
Definition table_wf (t : gmap Z YbQueryDiagnosticsEntry) : Prop :=
  ∀ k entry, t !! k = Some entry → query_id (params (metadata entry)) = k.

(** What a slot of the circular buffer holds apart from its description,
    and the row that reports it with the description left blank. *)
Definition slot_core (b : BundleInfo) : YbQueryDiagnosticsMetadata * Z :=
  (bundle_metadata b, bundle_status b).

Definition core_row (c : YbQueryDiagnosticsMetadata * Z) : StatusRow :=
  OutputBundle c.1 [] (status_text c.2).

(** A sample handed to [AccumulateBindVariables]: elapsed time and
    parameters. *)
Abbreviation sample := (spec_float * list ParamExternData)%type.

Section SpecNotions.
Context `{Host}.

(** The entry that [InsertNewBundleInfo] creates. *)
Definition new_entry (md : YbQueryDiagnosticsMetadata) : YbQueryDiagnosticsEntry :=
  {| metadata := md; bind_vars := zeroed YB_QD_MAX_BIND_VARS_LEN |}.

(** The entry after a sequence of samples. *)
Definition accumulate_all (entry : YbQueryDiagnosticsEntry) (samples : list sample)
  : YbQueryDiagnosticsEntry :=
  foldl (λ e s, (AccumulateBindVariables e s.1 s.2).1) entry samples.

(** The text of one parameter. *)
Definition param_text (p : ParamExternData) : cstring :=
  if isnull p then lit "NULL"
  else c_str (OidOutputFunctionCall (getTypeOutputInfo (ptype p)) (value p)).

(** The line of a sample as the specification words it: the texts of the
    parameters, nulls as [NULL], then the elapsed time, separated by
    commas, and a newline. *)
Definition spec_bind_variables_line (totaltime : spec_float) (ps : list ParamExternData)
  : cstring :=
  concat ((λ p, param_text p ++ lit ",") <$> ps) ++ fmt_lf totaltime ++ [LF].

(** What [FormatParams] appends for one parameter: no comma after NULL. *)
Definition param_field (p : ParamExternData) : cstring :=
  if isnull p then lit "NULL" else param_text p ++ lit ",".

(** The array of bind variables holds the string [s], followed by zero
    bytes. *)
Definition buffer_holds (a : list ascii) (s : cstring) : Prop :=
  a = s ++ zeroed (YB_QD_MAX_BIND_VARS_LEN - length s) ∧ no_nul s ∧
  (length s < YB_QD_MAX_BIND_VARS_LEN)%nat.

(** An entry of a scan that the sweep finds expired, and the completed
    bundle recorded for it with a given status and description. *)
Definition is_expired (now : Z) (ke : Z * YbQueryDiagnosticsEntry) : bool :=
  HasBundleExpired ke.2 now.

Definition recorded (ke : Z * YbQueryDiagnosticsEntry) (outcome : Z * cstring)
  : completed :=
  (metadata ke.2, outcome.1, outcome.2).

End SpecNotions.

(** The file of a bundle in its directory. *)
Definition bind_variables_file (dir : cstring) : cstring :=
  dir ++ lit "/bind_variables.csv".


(** ** Well-formed shared memory *)

Definition params_valid (p : YbQueryDiagnosticsParams) : Prop :=
  query_id p ≠ 0 ∧ 0 < diagnostics_interval_sec p ∧
  0 ≤ explain_sample_rate p ≤ 100 ∧ 0 ≤ bind_var_query_min_duration_ms p.

(** The description of a slot has its full length and a NUL in its last
    byte. *)
Definition slot_terminated (b : BundleInfo) : Prop :=
  length (bundle_description b) = DESCRIPTION_LEN ∧
  bundle_description b !! (DESCRIPTION_LEN - 1)%nat = Some NUL.

Definition ring_ok (r : YbQueryDiagnosticsBundles) : Prop :=
  ring_wf r ∧ Forall slot_terminated (bundles r).

Section WellFormed.
Context `{Host}.

(** An entry of the hash table as the code leaves it: stored under its
    query id, with validated parameters, a path that fits, and a buffer of
    full length holding a NUL-terminated string followed by zero bytes. *)
Definition entry_ok (k : Z) (entry : YbQueryDiagnosticsEntry) : Prop :=
  query_id (params (metadata entry)) = k ∧
  params_valid (params (metadata entry)) ∧
  no_nul (path (metadata entry)) ∧
  (length (path (metadata entry)) < MAXPGPATH)%nat ∧
  ∃ s, buffer_holds (bind_vars entry) s.

Definition table_ok (t : gmap Z YbQueryDiagnosticsEntry) : Prop :=
  ∀ k entry, t !! k = Some entry → entry_ok k entry.

(** The file that [DumpToFile] opens for a directory. *)
Definition dump_path (dir : cstring) : cstring :=
  snprintf (MAXPGPATH + length (lit "bind_variables.csv") + 1)
    (dir ++ lit "/" ++ lit "bind_variables.csv").

End WellFormed.


(** ** Notions used by the further properties *)

(** A description that fits a slot of the circular buffer with its
    terminator. *)
Definition description_fits (d : cstring) : Prop :=
  no_nul d ∧ (length d < DESCRIPTION_LEN)%nat.

(** The slot that a first write leaves: the zeroed description with the
    text copied to its start. *)
Definition written_slot (c : completed) : BundleInfo := {|
  bundle_metadata := c.1.1;
  bundle_status := c.1.2;
  bundle_description := memcpy_at (zeroed DESCRIPTION_LEN) 0 (c_str c.2) |}.

(** A wake-up during which no termination request arrives. *)
Definition no_sigterm (w : WakeUp) : Prop :=
  (SIGTERM ∉ signals_before w) ∧ (SIGTERM ∉ signals_during w).

(** The parameters that [FetchParams] reads from the arguments. *)
Definition fetched_params (fcinfo : FunctionCallInfo) : YbQueryDiagnosticsParams :=
  {| query_id := PG_ARG0 fcinfo;
     diagnostics_interval_sec := PG_ARG1 fcinfo;
     explain_sample_rate := PG_ARG2 fcinfo;
     explain_analyze := PG_ARG3 fcinfo;
     explain_dist := PG_ARG4 fcinfo;
     explain_debug := PG_ARG5 fcinfo;
     bind_var_query_min_duration_ms := PG_ARG6 fcinfo |}.



Section SweepNotions.
Context `{Host}.

(** The files that the sweep of one entry can write: the file of the
    bundle, when the entry has expired with data, its directory exists and
    the file can be opened. *)
Definition writes_file (now : Z) (entry : YbQueryDiagnosticsEntry) (f : cstring) : Prop :=
  HasBundleExpired entry now = true ∧
  pg_mkdir_p_ok (path (metadata entry)) = true ∧
  c_str (bind_vars entry) ≠ [] ∧
  PathNameOpenFile (dump_path (path (metadata entry))) = OpenOk ∧
  f = dump_path (path (metadata entry)).

End SweepNotions.

(** ** Sample runs *)

Definition sample_rsinfo : ReturnSetInfo :=
  {| rsinfo_is_set := true; allows_materialize := true; result_is_composite := true |}.

(** Shared memory after start-up, with a circular buffer of [buffer_kb] kB. *)
Definition sample_init (buffer_kb : Z) : Shmem :=
  @YbQueryDiagnosticsShmemInit (sample_host buffer_kb true).

(** Shared memory after a bundle for [qid] was started at time 0. *)
Definition sample_active (buffer_kb qid : Z) : Shmem :=
  (@yb_query_diagnostics (sample_host buffer_kb true) 0 (sample_fcinfo qid)
     (sample_init buffer_kb)).1.

(** An execution of query [qid] that took 12.3 ms. *)
Definition sample_queryDesc (qid : Z) (ps : list ParamExternData) : QueryDesc :=
  {| queryId := qid; totaltime_ms := double_12_3; query_params := Some ps |}.

Definition sample_completed (qid : Z) : completed :=
  (sample_metadata qid (1000 * qid), DIAGNOSTICS_SUCCESS, lit "No data captured").

Definition failed_completed (qid : Z) : completed :=
  (sample_metadata qid (1000 * qid), DIAGNOSTICS_ERROR,
   lit "Failed to create query diagnostics directory").

(** Five seconds after time 0, in microseconds. *)
Definition five_seconds : Z := 5000000.

(** A wake-up of the worker at time [t] with no signal and the postmaster
    alive. *)
Definition quiet_wake (t : Z) : WakeUp :=
  {| signals_before := []; postmaster_death := false; sweep_time := t;
     signals_during := [] |}.

(** A run of the worker: a wake-up by SIGHUP after one second, then a
    time-out after five seconds. *)
Definition sample_wakes : list WakeUp :=
  [ {| signals_before := [SIGHUP]; postmaster_death := false; sweep_time := 1000000;
       signals_during := [] |};
    quiet_wake five_seconds ].

(** The entry of the bundle of [sample_active 4 42]. *)
Definition sample_entry : YbQueryDiagnosticsEntry :=
  @new_entry (sample_host 4 true)
    {| params := sample_params 42; start_time := 0;
       path := lit "/pgdata/query-diagnostics/42/232720647/" |}.


Section FinalizationNotions.
Context `{Host}.


End FinalizationNotions.




(* ===================================================================== *)
(** * Properties *)

(** ** C strings *)

Lemma strlen_app_no_nul (s rest : list ascii) :
  no_nul s → strlen (s ++ rest) = (length s + strlen rest)%nat.
Proof.
  induction 1 as [|c s Hc _ IH]; [done|].
  cbn. unfold is_nul. rewrite bool_decide_eq_false_2 by done. by rewrite IH.
Qed.

Lemma strlen_nul_head (rest : list ascii) : strlen (NUL :: rest) = 0%nat.
Proof. reflexivity. Qed.

Lemma strlen_no_nul (s : list ascii) : no_nul s → strlen s = length s.
Proof.
  intros Hs. rewrite <- (app_nil_r s) at 1.
  rewrite strlen_app_no_nul by done. simpl. lia.
Qed.

Lemma strlen_le (a : list ascii) : (strlen a ≤ length a)%nat.
Proof.
  induction a as [|c a IH]; simpl; [lia|]. destruct (is_nul c); simpl; lia.
Qed.

Lemma c_str_no_nul (a : list ascii) : no_nul (c_str a).
Proof.
  unfold c_str, no_nul. induction a as [|c a IH]; simpl; [constructor|].
  unfold is_nul. case_bool_decide; simpl; [constructor|].
  constructor; done.
Qed.

Lemma c_str_id (s : list ascii) : no_nul s → c_str s = s.
Proof.
  intros Hs. unfold c_str. rewrite strlen_no_nul by done. apply firstn_all.
Qed.

Lemma c_str_padded (s : list ascii) (n : nat) :
  no_nul s → c_str (s ++ zeroed n) = s.
Proof.
  intros Hs. unfold c_str. rewrite strlen_app_no_nul by done.
  assert (strlen (zeroed n) = 0%nat) as -> by (destruct n; reflexivity).
  rewrite Nat.add_0_r. by rewrite take_app_length.
Qed.

Lemma no_nul_app (s1 s2 : list ascii) : no_nul s1 → no_nul s2 → no_nul (s1 ++ s2).
Proof. unfold no_nul. intros. by apply Forall_app. Qed.

Lemma appendStringInfo_no_nul (buf formatted : list ascii) :
  no_nul buf → no_nul (appendStringInfo buf formatted).
Proof. intros. apply no_nul_app; [done | apply c_str_no_nul]. Qed.

Lemma starts_with_nul_strlen (a : list ascii) :
  starts_with_nul a = true ↔ strlen a = 0%nat.
Proof.
  destruct a as [|c a]; simpl; [done|]. destruct (is_nul c); split; (done || lia).
Qed.

Lemma starts_with_nul_c_str (a : list ascii) :
  starts_with_nul a = true ↔ c_str a = [].
Proof.
  rewrite starts_with_nul_strlen. unfold c_str. split.
  - by intros ->.
  - intros Ht. destruct a as [|c a]; [done|]. simpl in *.
    destruct (is_nul c); [done | discriminate].
Qed.

(** Appending at the end of the string held by a zero-padded array. *)
Lemma memcpy_at_end (s line : list ascii) (n : nat) :
  (length line ≤ n)%nat →
  memcpy_at (s ++ zeroed n) (length s) line = (s ++ line) ++ zeroed (n - length line).
Proof.
  intros Hn. unfold memcpy_at.
  rewrite <- (Nat.add_0_r (length s)) at 1.
  rewrite list_inserts_app_r.
  replace (zeroed n) with (zeroed (length line) ++ zeroed (n - length line)).
  2:{ unfold zeroed. rewrite <- replicate_add. f_equal. lia. }
  rewrite list_inserts_0_r by (unfold zeroed; by rewrite length_replicate).
  by rewrite app_assoc.
Qed.

Lemma strlen_drop_strlen (a : list ascii) : strlen (drop (strlen a) a) = 0%nat.
Proof.
  induction a as [|c a IH]; [done|]. simpl.
  destruct (is_nul c) eqn:Hc; simpl; [by rewrite Hc | done].
Qed.

Lemma c_str_app_stop (s rest : list ascii) :
  no_nul s → strlen rest = 0%nat → c_str (s ++ rest) = s.
Proof.
  intros Hs Hrest. unfold c_str. rewrite strlen_app_no_nul, Hrest by done.
  rewrite Nat.add_0_r. apply take_app_length.
Qed.

Lemma memcpy_at_start (d old : list ascii) :
  (length d ≤ length old)%nat → memcpy_at old 0 d = d ++ drop (length d) old.
Proof.
  intros Hlen. unfold memcpy_at.
  rewrite <- (take_drop (length d) old) at 1.
  apply list_inserts_0_r. rewrite length_take. lia.
Qed.

(** A description written over a longer one keeps the tail of the longer
    one. *)
Lemma memcpy_description_keeps_tail (d old : list ascii) :
  no_nul d → (length d ≤ strlen old)%nat →
  c_str (memcpy_at old 0 d) = d ++ drop (length d) (c_str old).
Proof.
  intros Hd Hlen. pose proof (strlen_le old) as Hle.
  rewrite memcpy_at_start by lia.
  rewrite <- (take_drop (strlen old) old) at 1.
  rewrite drop_app_le by (rewrite length_take; lia).
  rewrite app_assoc. fold (c_str old).
  apply c_str_app_stop; [|apply strlen_drop_strlen].
  apply no_nul_app; [done|]. unfold no_nul. apply Forall_drop, c_str_no_nul.
Qed.

(** A description written into a slot of zero bytes is read back as it
    is. *)
Lemma memcpy_description_fresh (d : list ascii) (n : nat) :
  no_nul d → (length d < n)%nat → c_str (memcpy_at (zeroed n) 0 d) = d.
Proof.
  intros Hd Hlen. unfold zeroed.
  rewrite memcpy_at_start by (rewrite length_replicate; lia).
  rewrite drop_replicate. apply c_str_app_stop; [done|].
  destruct (n - length d)%nat eqn:E; [lia | reflexivity].
Qed.

(** ** Starting a bundle *)

Section Begin.
Context `{Host}.

Lemma InsertNewBundleInfo_found (md : YbQueryDiagnosticsMetadata) (sh : Shmem)
    (entry : YbQueryDiagnosticsEntry) :
  bundles_in_progress sh !! query_id (params md) = Some entry →
  InsertNewBundleInfo md sh =
    (sh, ereport ERRCODE_DUPLICATE_OBJECT
           (lit "Query diagnostics for query_id[ " ++ fmt_d (query_id (params md)) ++
            lit " ] is already being generated")).
Proof. intros Hfound. unfold InsertNewBundleInfo. by rewrite Hfound. Qed.

Lemma FetchParams_Ok_query_id (fcinfo : FunctionCallInfo) (p : YbQueryDiagnosticsParams) :
  FetchParams fcinfo = Ok p → query_id p = PG_ARG0 fcinfo.
Proof.
  unfold FetchParams. simpl.
  repeat (case_match; try discriminate). by intros [= <-].
Qed.

Lemma ConstructDiagnosticsPath_Ok (md md' : YbQueryDiagnosticsMetadata) :
  ConstructDiagnosticsPath md = Ok md' →
  params md' = params md ∧ start_time md' = start_time md.
Proof.
  unfold ConstructDiagnosticsPath. case_bool_decide; [discriminate|].
  by intros [= <-].
Qed.

Lemma FetchParams_raises_invalid (fcinfo : FunctionCallInfo) (e : ErrorData) :
  FetchParams fcinfo = Raise e → sqlerrcode e = ERRCODE_INVALID_PARAMETER_VALUE.
Proof.
  unfold FetchParams, ereport. simpl.
  repeat (case_match; try discriminate); by intros [= <-].
Qed.

Lemma FetchParams_invalid_iff (fcinfo : FunctionCallInfo) :
  is_error (FetchParams fcinfo) = true ↔
  PG_ARG0 fcinfo = 0 ∨ PG_ARG1 fcinfo ≤ 0 ∨
  PG_ARG2 fcinfo < 0 ∨ 100 < PG_ARG2 fcinfo ∨ PG_ARG6 fcinfo < 0.
Proof.
  unfold FetchParams, ereport. simpl.
  destruct (Z.eqb_spec (PG_ARG0 fcinfo) 0); [simpl; split; auto; lia|].
  destruct (Z.leb_spec (PG_ARG1 fcinfo) 0); [simpl; split; auto; lia|].
  destruct (Z.ltb_spec (PG_ARG2 fcinfo) 0); [simpl; split; auto; lia|].
  destruct (Z.gtb_spec (PG_ARG2 fcinfo) 100); [simpl; split; auto; lia|].
  destruct (Z.ltb_spec (PG_ARG6 fcinfo) 0); simpl; split; auto; try lia; discriminate.
Qed.

(** C1. A call of [yb_query_diagnostics] for a query id that already has
    an entry in [bundles_in_progress] raises an error and leaves the shared
    memory as it was: the entry, its metadata and its bind variables are
    unchanged and no entry is added or removed. [InsertNewBundleInfo]
    raises ERRCODE_DUPLICATE_OBJECT, and so does the call whenever it gets
    that far (the feature is enabled, the arguments are valid and the path
    fits). *)
Theorem duplicate_begin_rejected (now : Z) (fcinfo : FunctionCallInfo) (sh : Shmem)
    (entry : YbQueryDiagnosticsEntry) :
  bundles_in_progress sh !! PG_ARG0 fcinfo = Some entry →
  (∀ md, query_id (params md) = PG_ARG0 fcinfo →
     (InsertNewBundleInfo md sh).1 = sh ∧
     raises (InsertNewBundleInfo md sh).2 ERRCODE_DUPLICATE_OBJECT) ∧
  ∃ e sh', yb_query_diagnostics now fcinfo sh = (sh', Raise e) ∧ sh' = sh ∧
       bundles_in_progress sh' !! PG_ARG0 fcinfo = Some entry ∧
       (YBIsQueryDiagnosticsEnabled = true →
        ∀ p md, FetchParams fcinfo = Ok p →
          ConstructDiagnosticsPath {| params := p; start_time := now; path := [] |} = Ok md →
          sqlerrcode e = ERRCODE_DUPLICATE_OBJECT).
Proof.
  intros Hfound. split.
  - intros md Hk. rewrite <- Hk in Hfound.
    rewrite (InsertNewBundleInfo_found _ _ _ Hfound). split; [done|].
    eexists. reflexivity.
  - unfold yb_query_diagnostics.
    destruct YBIsQueryDiagnosticsEnabled; simpl.
    2:{ eexists _, sh. split; [reflexivity|]. do 2 (split; [done|]). discriminate. }
    destruct (FetchParams fcinfo) as [p|e] eqn:Hp.
    2:{ exists e, sh. do 3 (split; [done|]). intros _ ? ? [=]. }
    destruct (ConstructDiagnosticsPath _) as [md|e] eqn:Hmd.
    2:{ exists e, sh. do 3 (split; [done|]).
        intros _ p0 md0 [= <-] Hc. rewrite Hmd in Hc. discriminate. }
    apply ConstructDiagnosticsPath_Ok in Hmd as [Hparams _]. simpl in Hparams.
    apply FetchParams_Ok_query_id in Hp.
    assert (bundles_in_progress sh !! query_id (params md) = Some entry) as Hfound'
      by (by rewrite Hparams, Hp).
    rewrite (InsertNewBundleInfo_found _ _ _ Hfound').
    eexists _, sh. split; [reflexivity|]. do 2 (split; [done|]). done.
Qed.

(** C7. [FetchParams] rejects exactly the argument lists with query id 0,
    a non-positive interval, a sample rate outside 0..100 or a negative
    minimum duration, always with ERRCODE_INVALID_PARAMETER_VALUE; a call
    of [yb_query_diagnostics] with such arguments raises an error before
    anything is changed in shared memory (the validation error whenever the
    feature is enabled). Sample rates 0 and 100 are accepted when the other
    arguments are valid, -1 and 101 are rejected. *)
Theorem begin_validates_arguments (now : Z) (fcinfo : FunctionCallInfo) (sh : Shmem) :
  (is_error (FetchParams fcinfo) = true ↔
     PG_ARG0 fcinfo = 0 ∨ PG_ARG1 fcinfo ≤ 0 ∨
     PG_ARG2 fcinfo < 0 ∨ 100 < PG_ARG2 fcinfo ∨ PG_ARG6 fcinfo < 0) ∧
  (∀ e, FetchParams fcinfo = Raise e → sqlerrcode e = ERRCODE_INVALID_PARAMETER_VALUE) ∧
  (is_error (FetchParams fcinfo) = true →
     ∃ e, yb_query_diagnostics now fcinfo sh = (sh, Raise e) ∧
          (YBIsQueryDiagnosticsEnabled = true →
           sqlerrcode e = ERRCODE_INVALID_PARAMETER_VALUE)) ∧
  (PG_ARG0 fcinfo ≠ 0 → 0 < PG_ARG1 fcinfo → 0 ≤ PG_ARG6 fcinfo →
     is_error (FetchParams (with_sample_rate 0 fcinfo)) = false ∧
     is_error (FetchParams (with_sample_rate 100 fcinfo)) = false) ∧
  raises (FetchParams (with_sample_rate (-1) fcinfo)) ERRCODE_INVALID_PARAMETER_VALUE ∧
  raises (FetchParams (with_sample_rate 101 fcinfo)) ERRCODE_INVALID_PARAMETER_VALUE.
Proof.
  split; [apply FetchParams_invalid_iff|].
  split; [apply FetchParams_raises_invalid|].
  split.
  { intros Herr. unfold yb_query_diagnostics.
    destruct (FetchParams fcinfo) as [p|e] eqn:Hp; [discriminate|].
    destruct YBIsQueryDiagnosticsEnabled; simpl.
    - exists e. split; [done|]. intros _. by eapply FetchParams_raises_invalid.
    - eexists. split; [reflexivity|]. discriminate. }
  split.
  { intros H0 H1 H6. split.
    - destruct (is_error _) eqn:Herr; [|done].
      apply FetchParams_invalid_iff in Herr. simpl in Herr. lia.
    - destruct (is_error _) eqn:Herr; [|done].
      apply FetchParams_invalid_iff in Herr. simpl in Herr. lia. }
  assert (∀ r, r < 0 ∨ 100 < r →
            raises (FetchParams (with_sample_rate r fcinfo))
              ERRCODE_INVALID_PARAMETER_VALUE) as Hrej.
  { intros r Hr.
    destruct (FetchParams (with_sample_rate r fcinfo)) as [p|e] eqn:Hp.
    - assert (is_error (FetchParams (with_sample_rate r fcinfo)) = true) as Herr
        by (apply FetchParams_invalid_iff; simpl; lia).
      by rewrite Hp in Herr.
    - pose proof (FetchParams_raises_invalid _ _ Hp) as Hcode.
      destruct e as [code msg]. simpl in Hcode. subst code. by exists msg. }
  split; apply Hrej; lia.
Qed.

(** C10. The path of a bundle is a function of the data directory, the
    query id and the start time: its last component is the decimal text of
    the hash of the bytes of the start time, so two calls with equal query
    ids and start times that both succeed return the same path, whatever
    their other arguments and whatever the shared memory holds. *)
Theorem storage_path_deterministic (now : Z) (f1 f2 : FunctionCallInfo)
    (sh1 sh2 sh1' sh2' : Shmem) (p1 p2 : cstring) :
  PG_ARG0 f1 = PG_ARG0 f2 →
  yb_query_diagnostics now f1 sh1 = (sh1', Ok p1) →
  yb_query_diagnostics now f2 sh2 = (sh2', Ok p2) →
  p1 = p2 ∧
  p1 = c_str DataDir ++ lit "/query-diagnostics/" ++ fmt_d (PG_ARG0 f1) ++ lit "/" ++
       fmt_d (to_int32 (to_uint32 (hash_any (int64_bytes now)))) ++ lit "/".
Proof.
  assert (∀ f sh sh' p, yb_query_diagnostics now f sh = (sh', Ok p) →
            p = c_str DataDir ++ lit "/query-diagnostics/" ++ fmt_d (PG_ARG0 f) ++
                lit "/" ++ fmt_d (to_int32 (to_uint32 (hash_any (int64_bytes now)))) ++
                lit "/") as Hpath.
  { intros f sh sh' p. unfold yb_query_diagnostics.
    destruct YBIsQueryDiagnosticsEnabled; simpl; [|discriminate].
    destruct (FetchParams f) as [q|e] eqn:Hq; [|discriminate].
    apply FetchParams_Ok_query_id in Hq.
    unfold ConstructDiagnosticsPath. simpl.
    case_bool_decide; [discriminate|].
    destruct (InsertNewBundleInfo _ sh) as [sh'' [[]|e]]; [|discriminate].
    intros [= _ <-]. simpl. rewrite Hq. reflexivity. }
  intros Hq H1 H2. apply Hpath in H1, H2. split; [|done].
  rewrite H1, H2. by rewrite Hq.
Qed.

End Begin.

(** ** The circular buffer of completed bundles *)

Section Ring.

Lemma to_int32_small (z : Z) : - 2 ^ 31 ≤ z < 2 ^ 31 → to_int32 z = z.
Proof. intros Hz. unfold to_int32. rewrite Z.mod_small; lia. Qed.

Lemma insert_completed_max_entries (r : YbQueryDiagnosticsBundles) (c : completed) :
  max_entries (insert_completed r c) = max_entries r.
Proof. reflexivity. Qed.

Lemma insert_completed_length (r : YbQueryDiagnosticsBundles) (c : completed) :
  length (bundles (insert_completed r c)) = length (bundles r).
Proof. simpl. apply length_alter. Qed.

Lemma insert_completed_index (r : YbQueryDiagnosticsBundles) (c : completed) :
  ring_wf r →
  index (insert_completed r c) =
    if bool_decide (index r + 1 = max_entries r) then 0 else index r + 1.
Proof.
  intros (Hi & Hmax & _). simpl. by rewrite to_int32_small by lia.
Qed.

Lemma insert_completed_wf (r : YbQueryDiagnosticsBundles) (c : completed) :
  ring_wf r → ring_wf (insert_completed r c).
Proof.
  intros Hwf. pose proof Hwf as (Hi & Hmax & Hlen).
  unfold ring_wf. rewrite insert_completed_index, insert_completed_max_entries,
    insert_completed_length by done.
  case_bool_decide; lia.
Qed.

Lemma insert_completed_cores (r : YbQueryDiagnosticsBundles) (c : completed) :
  ring_wf r →
  slot_core <$> bundles (insert_completed r c) =
    <[Z.to_nat (index r) := c.1]> (slot_core <$> bundles r).
Proof.
  intros (Hi & Hmax & Hlen). simpl.
  apply list_eq. intros j.
  rewrite list_lookup_fmap.
  destruct (decide (j = Z.to_nat (index r))) as [->|Hne].
  - rewrite list_lookup_alter_eq, list_lookup_insert_eq
      by (rewrite length_fmap; lia).
    destruct (lookup_lt_is_Some_2 (bundles r) (Z.to_nat (index r))) as [b Hb]; [lia|].
    rewrite Hb. simpl. by destruct c as [[md st] d].
  - rewrite list_lookup_alter_ne, list_lookup_insert_ne by done.
    by rewrite list_lookup_fmap.
Qed.

(** Insertions that do not pass the end of the array fill consecutive
    slots. *)
Lemma insert_all_cores_no_wrap (cs : list completed) (r : YbQueryDiagnosticsBundles) :
  ring_wf r →
  (Z.to_nat (index r) + length cs ≤ Z.to_nat (max_entries r))%nat →
  let r' := insert_all_completed r cs in
  ring_wf r' ∧ max_entries r' = max_entries r ∧
  index r' = (if bool_decide (index r + Z.of_nat (length cs) = max_entries r)
              then 0 else index r + Z.of_nat (length cs)) ∧
  slot_core <$> bundles r' =
    take (Z.to_nat (index r)) (slot_core <$> bundles r) ++ (fst <$> cs) ++
    drop (Z.to_nat (index r) + length cs) (slot_core <$> bundles r).
Proof.
  revert r. induction cs as [|c cs IH]; intros r Hwf Hfit.
  - cbn zeta. unfold insert_all_completed. simpl foldl. simpl length.
    split; [done|]. split; [done|]. split.
    + destruct Hwf as (Hi & _). rewrite bool_decide_eq_false_2 by lia. lia.
    + rewrite Nat.add_0_r. simpl. by rewrite take_drop.
  - pose proof Hwf as (Hi & Hmax & Hlen).
    pose proof (insert_completed_wf r c Hwf) as Hwf1.
    pose proof (insert_completed_index r c Hwf) as Hidx1.
    pose proof (insert_completed_cores r c Hwf) as Hcores1.
    cbn zeta.
    change (insert_all_completed r (c :: cs))
      with (insert_all_completed (insert_completed r c) cs).
    rewrite length_cons in Hfit |- *.
    destruct (decide (cs = [])) as [->|Hne].
    + unfold insert_all_completed. simpl foldl. 
      split; [done|]. split; [done|]. split.
      * rewrite Hidx1. simpl length. repeat case_bool_decide; lia.
      * rewrite Hcores1. rewrite insert_take_drop by (rewrite length_fmap; lia).
        simpl. do 2 f_equal. f_equal. lia.
    + assert (0 < length cs)%nat as Hpos by (destruct cs; [done | simpl; lia]).
      assert (index (insert_completed r c) = index r + 1) as Hidx1'.
      { rewrite Hidx1. rewrite bool_decide_eq_false_2; lia. }
      destruct (IH (insert_completed r c) Hwf1) as (Hwf' & Hmax' & Hidx' & Hcores').
      { rewrite Hidx1', insert_completed_max_entries. lia. }
      split; [done|]. split; [by rewrite Hmax'|]. split.
      * rewrite Hidx', Hidx1', insert_completed_max_entries.
        replace (index r + 1 + Z.of_nat (length cs))
          with (index r + Z.of_nat (S (length cs))) by lia.
        done.
      * rewrite Hcores', Hidx1', Hcores1.
        replace (Z.to_nat (index r + 1)) with (S (Z.to_nat (index r))) by lia.
        set (i := Z.to_nat (index r)). set (L := slot_core <$> bundles r).
        assert (i < length L)%nat as HiL by (unfold L; rewrite length_fmap; lia).
        set (P := take i L ++ [c.1]).
        assert (length P = S i) as Hl
          by (unfold P; rewrite length_app, length_take; simpl; lia).
        assert (<[i:=c.1]> L = P ++ drop (S i) L) as ->
          by (rewrite insert_take_drop by done; unfold P; by rewrite <- app_assoc).
        rewrite (take_app_length' P _ (S i)) by done.
        rewrite (drop_app_add' P _ (S i)) by done.
        rewrite drop_drop. unfold P. rewrite fmap_cons, <- !app_assoc. simpl.
        do 3 f_equal. f_equal. lia.
Qed.

Lemma output_completed_cores (bs : list BundleInfo) :
  Forall (λ c, query_id (params c.1) ≠ 0) (slot_core <$> bs) →
  without_description <$> omap output_completed bs = core_row <$> (slot_core <$> bs).
Proof.
  induction bs as [|b bs IH]; [done|].
  rewrite fmap_cons. intros [Hb Hbs]%Forall_cons. simpl in Hb.
  cbn [omap list_omap]. unfold output_completed at 1.
  rewrite bool_decide_eq_true_2 by done.
  rewrite fmap_cons, IH by done. done.
Qed.

Lemma insert_all_completed_app (r : YbQueryDiagnosticsBundles) (cs1 cs2 : list completed) :
  insert_all_completed r (cs1 ++ cs2) =
  insert_all_completed (insert_all_completed r cs1) cs2.
Proof. apply foldl_app. Qed.

(** The slots after one more insertion than the buffer has slots. *)
Lemma insert_all_cores_wrap (r : YbQueryDiagnosticsBundles) (cs : list completed) :
  ring_wf r →
  length cs = S (Z.to_nat (max_entries r)) →
  let n := Z.to_nat (max_entries r) in
  let i := Z.to_nat (index r) in
  let r' := insert_all_completed r cs in
  max_entries r' = max_entries r ∧
  length (bundles r') = n ∧
  slot_core <$> bundles r' =
    fst <$> (take i (drop (n - i) cs) ++ drop n cs ++ take (n - 1 - i) (drop 1 cs)).
Proof.
  intros Hwf Hlen n i. pose proof Hwf as (Hi & Hmax & Hbl).
  set (A := take (n - i) cs). set (B := take i (drop (n - i) cs)).
  set (C := drop n cs).
  assert (cs = A ++ B ++ C) as Hcs.
  { unfold A, B, C. rewrite app_assoc, take_take_drop.
    replace (n - i + i)%nat with n by lia. by rewrite take_drop. }
  assert (length A = (n - i)%nat) as HlA by (unfold A; rewrite length_take; lia).
  assert (length B = i) as HlB
    by (unfold B; rewrite length_take, length_drop; lia).
  assert (length C = 1%nat) as HlC by (unfold C; rewrite length_drop; lia).
  assert (take (n - 1 - i) (drop 1 cs) = drop 1 A) as ->.
  { unfold A. rewrite take_drop_commute. f_equal. f_equal. lia. }
  fold B C. cbn zeta. rewrite Hcs at 1 2 3.
  rewrite !insert_all_completed_app.
  destruct (insert_all_cores_no_wrap A r Hwf) as (Hwf1 & Hmax1 & Hidx1 & Hc1); [lia|].
  set (r1 := insert_all_completed r A) in *.
  rewrite bool_decide_eq_true_2 in Hidx1 by lia.
  destruct (insert_all_cores_no_wrap B r1 Hwf1) as (Hwf2 & Hmax2 & Hidx2 & Hc2).
  { rewrite Hidx1, Hmax1. lia. }
  set (r2 := insert_all_completed r1 B) in *.
  rewrite Hidx1, Hmax1 in Hidx2. rewrite bool_decide_eq_false_2 in Hidx2 by lia.
  destruct (insert_all_cores_no_wrap C r2 Hwf2) as (Hwf3 & Hmax3 & Hidx3 & Hc3).
  { rewrite Hidx2, Hmax2, Hmax1. lia. }
  set (r3 := insert_all_completed r2 C) in *.
  split; [by rewrite Hmax3, Hmax2, Hmax1|].
  split.
  { destruct Hwf3 as (_ & _ & ->). by rewrite Hmax3, Hmax2, Hmax1. }
  rewrite Hc3, Hc2, Hc1, Hidx2, Hidx1.
  set (L := slot_core <$> bundles r).
  assert (length L = n) as HlL by (unfold L; rewrite length_fmap; lia).
  replace (Z.to_nat (0 + Z.of_nat (length B))) with i by lia.
  change (Z.to_nat 0) with 0%nat. rewrite take_0, app_nil_l.
  replace (Z.to_nat (index r)) with i by done.
  rewrite (drop_ge L) by lia. rewrite app_nil_r.
  replace (0 + length B)%nat with (length (take i L)) by (rewrite length_take; lia).
  rewrite drop_app_length.
  replace i with (length B.*1) at 1 by (by rewrite length_fmap).
  rewrite take_app_length.
  replace (i + length C)%nat with (length B.*1 + 1)%nat
    by (rewrite length_fmap; lia).
  rewrite drop_app_add.
  rewrite !fmap_app. by rewrite fmap_drop.
Qed.

(** C2 (amended). After N+1 insertions into a circular buffer of N slots
    (bundles with non-zero query ids), the completed rows of the status
    report are, apart from the description column, exactly those of the
    last N inserted bundles, and the oldest bundle has no row. The rows come
    in slot order: for a cursor that started at slot [i], the [i] bundles
    that wrapped around, then the newest, then the remaining ones. This is
    a rotation of the insertion order, not recency order. *)
Theorem ring_report_after_wraparound (r : YbQueryDiagnosticsBundles) (cs : list completed) :
  ring_wf r →
  length cs = S (Z.to_nat (max_entries r)) →
  Forall (λ c : completed, query_id (params c.1.1) ≠ 0) cs →
  let n := Z.to_nat (max_entries r) in
  let i := Z.to_nat (index r) in
  let reported := take i (drop (n - i) cs) ++ drop n cs ++ take (n - 1 - i) (drop 1 cs) in
  without_description <$> ProcessCompletedBundles (insert_all_completed r cs) =
    without_description <$> (completed_row <$> reported) ∧
  reported ≡ₚ drop 1 cs ∧
  (∀ c, cs !! 0%nat = Some c → c ∉ drop 1 cs → c ∉ reported).
Proof.
  intros Hwf Hlen Hq n i reported.
  assert (reported ≡ₚ drop 1 cs) as Hperm.
  { pose proof Hwf as (? & ? & ?).
    assert (drop 1 cs = take (n - 1 - i) (drop 1 cs) ++
                        take i (drop (n - i) cs) ++ drop n cs) as Hsplit.
    { rewrite <- (take_drop (n - 1 - i) (drop 1 cs)) at 1. f_equal.
      rewrite drop_drop. replace (1 + (n - 1 - i))%nat with (n - i)%nat by lia.
      rewrite <- (take_drop i (drop (n - i) cs)) at 1. f_equal.
      rewrite drop_drop. f_equal. lia. }
    rewrite Hsplit. unfold reported.
    rewrite (app_assoc (take i _)). by rewrite (comm (++) (take (n - 1 - i) _)). }
  split; [|split; [done|]].
  - destruct (insert_all_cores_wrap r cs Hwf Hlen) as (Hmax & Hbl & Hcores).
    fold n i reported in Hcores, Hbl.
    unfold ProcessCompletedBundles. rewrite Hmax. fold n.
    rewrite take_ge by lia.
    rewrite output_completed_cores.
    + rewrite Hcores. rewrite <- !list_fmap_compose. apply list_fmap_ext.
      by intros _ [[md st] d] _.
    + rewrite Hcores. rewrite Forall_fmap.
      assert (Forall (λ c : completed, query_id (params c.1.1) ≠ 0) (drop 1 cs)) as Hq'
        by (by apply Forall_drop).
      rewrite <- Hperm in Hq'. eapply Forall_impl; [exact Hq'|]. by intros [[md st] d].
  - intros c _ Hc. by rewrite Hperm.
Qed.

End Ring.

(** ** Decimal text has no NUL *)

Lemma no_nul_lit_uint (u : Decimal.uint) : no_nul (lit (NilEmpty.string_of_uint u)).
Proof.
  unfold no_nul, lit.
  induction u; simpl; try constructor; try done.
Qed.

Lemma no_nul_fmt_d (z : Z) : no_nul (fmt_d z).
Proof.
  unfold fmt_d, NilZero.string_of_int, NilZero.string_of_uint.
  destruct (Z.to_int z) as [u|u].
  - destruct u; try apply no_nul_lit_uint. unfold no_nul, lit. simpl.
    constructor; done.
  - change (lit (String "-" ?s)) with ("-"%char :: lit s).
    constructor; [done|].
    destruct u; try apply no_nul_lit_uint. unfold no_nul, lit. simpl.
    constructor; done.
Qed.

Lemma nonempty_fmt_d (z : Z) : fmt_d z ≠ [].
Proof.
  unfold fmt_d, NilZero.string_of_int, NilZero.string_of_uint.
  destruct (Z.to_int z) as [u|u]; [|done].
  destruct u; done.
Qed.

Lemma no_nul_fmt_lf (x : spec_float) : no_nul (fmt_lf x).
Proof.
  assert (∀ s q, no_nul (fmt_fixed6 s q)) as Hfixed.
  { intros s q. unfold fmt_fixed6, pad6.
    repeat apply no_nul_app; try apply no_nul_fmt_d.
    - destruct s; [|constructor]. by repeat constructor.
    - by repeat constructor.
    - apply Forall_replicate. done. }
  destruct x as [s|s| |s m e]; simpl; try apply Hfixed.
  - destruct s; by repeat constructor.
  - by repeat constructor.
Qed.

(** ** The executor hook *)

Section Hook.
Context `{Host}.

Lemma FormatParams_app (buf : cstring) (ps : list ParamExternData) :
  FormatParams buf ps = buf ++ FormatParams [] ps.
Proof.
  revert buf. induction ps as [|p ps IH]; intros buf; simpl.
  - by rewrite app_nil_r.
  - unfold appendStringInfo.
    destruct (isnull p); rewrite IH, (IH ([] ++ _)), app_nil_l; by rewrite app_assoc.
Qed.

Lemma FormatParams_fields (ps : list ParamExternData) :
  FormatParams [] ps = concat (param_field <$> ps).
Proof.
  induction ps as [|p ps IH]; [done|].
  simpl. rewrite FormatParams_app, IH. f_equal.
  unfold param_field, param_text, appendStringInfo.
  destruct (isnull p); simpl.
  - reflexivity.
  - rewrite c_str_id; [done|].
    apply no_nul_app; [apply c_str_no_nul | by repeat constructor].
Qed.

Lemma bind_variables_line_fields (t : spec_float) (ps : list ParamExternData) :
  bind_variables_line t ps = concat (param_field <$> ps) ++ fmt_lf t ++ [LF].
Proof.
  unfold bind_variables_line, appendStringInfo. rewrite FormatParams_fields.
  rewrite c_str_id; [done|].
  apply no_nul_app; [apply no_nul_fmt_lf | by repeat constructor].
Qed.

Lemma no_nul_param_field (p : ParamExternData) : no_nul (param_field p).
Proof.
  unfold param_field, param_text. destruct (isnull p).
  - by repeat constructor.
  - apply no_nul_app; [apply c_str_no_nul | by repeat constructor].
Qed.

Lemma no_nul_bind_variables_line (t : spec_float) (ps : list ParamExternData) :
  no_nul (bind_variables_line t ps).
Proof.
  rewrite bind_variables_line_fields.
  apply no_nul_app.
  - unfold no_nul. apply Forall_concat, Forall_fmap, Forall_forall.
    intros p _. apply no_nul_param_field.
  - apply no_nul_app; [apply no_nul_fmt_lf | by repeat constructor].
Qed.

Lemma bind_variables_line_nonempty (t : spec_float) (ps : list ParamExternData) :
  bind_variables_line t ps ≠ [].
Proof.
  rewrite bind_variables_line_fields. intros Hnil.
  apply app_eq_nil in Hnil as [_ Hnil]. apply app_eq_nil in Hnil as [_ Hnil]. done.
Qed.

(** Without null parameters the line is the one of the specification. *)
Lemma bind_variables_line_no_null (t : spec_float) (ps : list ParamExternData) :
  Forall (λ p, isnull p = false) ps →
  bind_variables_line t ps = spec_bind_variables_line t ps.
Proof.
  intros Hps. rewrite bind_variables_line_fields. unfold spec_bind_variables_line.
  f_equal. f_equal. apply Forall_fmap_ext_1. eapply Forall_impl; [exact Hps|].
  intros p Hp. unfold param_field. by rewrite Hp.
Qed.

Lemma buffer_holds_c_str (a : list ascii) (s : cstring) :
  buffer_holds a s → c_str a = s ∧ strlen a = length s.
Proof.
  intros (-> & Hs & Hlen). split; [by apply c_str_padded|].
  rewrite strlen_app_no_nul by done.
  destruct (YB_QD_MAX_BIND_VARS_LEN - length s)%nat eqn:E; [lia|]. simpl. lia.
Qed.

Lemma new_entry_holds (md : YbQueryDiagnosticsMetadata) :
  (0 < YB_QD_MAX_BIND_VARS_LEN)%nat → buffer_holds (bind_vars (new_entry md)) [].
Proof.
  intros Hpos. unfold buffer_holds. simpl. rewrite Nat.sub_0_r.
  split; [done|]. split; [constructor | done].
Qed.

Lemma AccumulateBindVariables_holds (entry : YbQueryDiagnosticsEntry) (s : cstring)
    (t : spec_float) (ps : list ParamExternData) :
  buffer_holds (bind_vars entry) s →
  let line := bind_variables_line t ps in
  let entry' := (AccumulateBindVariables entry t ps).1 in
  metadata entry' = metadata entry ∧
  buffer_holds (bind_vars entry')
    (if bool_decide (length s + length line < YB_QD_MAX_BIND_VARS_LEN)%nat
     then s ++ line else s).
Proof.
  intros Hs line entry'.
  destruct (buffer_holds_c_str _ _ Hs) as [_ Hstrlen].
  pose proof (bind_variables_line_nonempty t ps) as Hne.
  assert (0 < length line)%nat as Hpos.
  { unfold line. destruct (bind_variables_line t ps); [done | simpl; lia]. }
  unfold entry', AccumulateBindVariables. rewrite Hstrlen. fold line.
  case_bool_decide as Hfull.
  - cbn [fst]. split; [done|]. rewrite bool_decide_eq_false_2 by lia. exact Hs.
  - case_bool_decide as Hfits; cbn [fst metadata bind_vars]; [|done]. split; [done|].
    destruct Hs as (Ha & Hnn & Hlen). rewrite Ha.
    rewrite memcpy_at_end by lia.
    split; [|split].
    + f_equal. rewrite length_app. f_equal. lia.
    + apply no_nul_app; [done | apply no_nul_bind_variables_line].
    + rewrite length_app. lia.
Qed.

(** A full buffer takes no further sample. *)
Lemma AccumulateBindVariables_full (entry : YbQueryDiagnosticsEntry)
    (t : spec_float) (ps : list ParamExternData) :
  strlen (bind_vars entry) = (YB_QD_MAX_BIND_VARS_LEN - 1)%nat →
  (AccumulateBindVariables entry t ps).1 = entry.
Proof.
  intros Hfull. unfold AccumulateBindVariables.
  by rewrite bool_decide_eq_true_2 by done.
Qed.





End Hook.

(** ** The sweep of expired bundles *)

Section Sweep.
Context `{Host}.

Lemma DumpToFile_no_data (dir file_name : cstring) (data : list ascii)
    (description : cstring) (fs : FileSystem) :
  c_str data = [] →
  DumpToFile dir file_name data description fs =
    (fs, DIAGNOSTICS_SUCCESS, lit "No data captured").
Proof.
  intros Hdata%starts_with_nul_c_str. unfold DumpToFile. by rewrite Hdata.
Qed.

Lemma snprintf_fits (size : nat) (s : cstring) :
  no_nul s → (length s < size)%nat → snprintf size s = s.
Proof.
  intros Hs Hlen. unfold snprintf. rewrite c_str_id by done.
  apply take_ge. lia.
Qed.


Lemma RemoveExpiredEntry_not_expired (now : Z) (st : Shmem * FileSystem)
    (entry : YbQueryDiagnosticsEntry) :
  HasBundleExpired entry now = false → RemoveExpiredEntry now st entry = st.
Proof. intros He. unfold RemoveExpiredEntry. destruct st. by rewrite He. Qed.

(** An expired entry is removed from the hash table and recorded once in
    the circular buffer. *)
Lemma RemoveExpiredEntry_expired (now : Z) (sh : Shmem) (fs : FileSystem)
    (entry : YbQueryDiagnosticsEntry) :
  HasBundleExpired entry now = true →
  ∃ status description fs',
    RemoveExpiredEntry now (sh, fs) entry =
      ({| bundles_in_progress :=
            delete (query_id (params (metadata entry))) (bundles_in_progress sh);
          bundles_completed :=
            InsertCompletedBundleInfo (metadata entry) status description
              (bundles_completed sh) |}, fs').
Proof.
  intros He. unfold RemoveExpiredEntry. rewrite He.
  destruct (if negb _ then _ else _) as [[fs' status] description].
  by exists status, description, fs'.
Qed.

Lemma sweep_fold (now : Z) (l : list (Z * YbQueryDiagnosticsEntry))
    (sh : Shmem) (fs : FileSystem) :
  let st' := foldl (λ st ke, RemoveExpiredEntry now st ke.2) (sh, fs) l in
  bundles_in_progress st'.1 =
    foldl (λ t ke, if is_expired now ke
                   then delete (query_id (params (metadata ke.2))) t else t)
      (bundles_in_progress sh) l ∧
  ∃ outcomes : list (Z * cstring),
    length outcomes = length (filter (λ ke, is_expired now ke = true) l) ∧
    bundles_completed st'.1 =
      insert_all_completed (bundles_completed sh)
        (zip_with recorded (filter (λ ke, is_expired now ke = true) l) outcomes).
Proof.
  revert sh fs. induction l as [|[k e] l IH]; intros sh fs.
  - simpl. split; [done|]. by exists [].
  - cbn zeta. cbn [foldl].
    change ((k, e).2) with e.
    destruct (HasBundleExpired e now) eqn:He.
    + assert (is_expired now (k, e) = true) as Hx by done. rewrite Hx.
      destruct (RemoveExpiredEntry_expired now sh fs e He)
        as (status & description & fs' & ->).
      destruct (IH {| bundles_in_progress := delete (query_id (params (metadata e)))
                                                (bundles_in_progress sh);
                      bundles_completed := InsertCompletedBundleInfo (metadata e) status
                                             description (bundles_completed sh) |} fs')
        as (Ht & outcomes & Hlen & Hr).
      split; [exact Ht|].
      exists ((status, description) :: outcomes).
      rewrite filter_cons_True by done. split; [simpl; lia|].
      rewrite Hr. reflexivity.
    + assert (is_expired now (k, e) = false) as Hx by done. rewrite Hx.
      rewrite RemoveExpiredEntry_not_expired by done.
      destruct (IH sh fs) as (Ht & outcomes & Hlen & Hr).
      split; [exact Ht|]. exists outcomes.
      rewrite filter_cons_False by (by rewrite Hx).
      done.
Qed.

Lemma fold_delete_lookup_None (now : Z) (l : list (Z * YbQueryDiagnosticsEntry))
    (t : gmap Z YbQueryDiagnosticsEntry) (k : Z) :
  t !! k = None →
  foldl (λ t ke, if is_expired now ke
                 then delete (query_id (params (metadata ke.2))) t else t) t l !! k = None.
Proof.
  revert t. induction l as [|ke l IH]; intros t Hk; [done|].
  cbn [foldl]. apply IH. destruct (is_expired now ke); [|done].
  rewrite lookup_delete. case_decide; done.
Qed.

Lemma fold_delete_lookup_removed (now : Z) (l : list (Z * YbQueryDiagnosticsEntry))
    (t : gmap Z YbQueryDiagnosticsEntry) (ke : Z * YbQueryDiagnosticsEntry) :
  ke ∈ l → is_expired now ke = true →
  foldl (λ t ke, if is_expired now ke
                 then delete (query_id (params (metadata ke.2))) t else t) t l
    !! query_id (params (metadata ke.2)) = None.
Proof.
  revert t. induction l as [|ke' l IH]; intros t Hin He; [by apply elem_of_nil in Hin|].
  cbn [foldl]. apply elem_of_cons in Hin as [<-|Hin]; [|by apply IH].
  rewrite He. apply fold_delete_lookup_None. apply lookup_delete_eq.
Qed.

Lemma fold_delete_lookup_kept (now : Z) (l : list (Z * YbQueryDiagnosticsEntry))
    (t : gmap Z YbQueryDiagnosticsEntry) (k : Z) :
  (∀ ke, ke ∈ l → is_expired now ke = true → query_id (params (metadata ke.2)) ≠ k) →
  foldl (λ t ke, if is_expired now ke
                 then delete (query_id (params (metadata ke.2))) t else t) t l !! k
  = t !! k.
Proof.
  revert t. induction l as [|ke l IH]; intros t Hl; [done|].
  cbn [foldl]. rewrite IH by (intros ke' Hin; apply Hl; by right).
  destruct (is_expired now ke) eqn:He; [|done].
  apply lookup_delete_ne. apply Hl; [by left | done].
Qed.

Lemma hash_seq_lookup (t : gmap Z YbQueryDiagnosticsEntry) (k : Z)
    (entry : YbQueryDiagnosticsEntry) :
  (k, entry) ∈ hash_seq t ↔ t !! k = Some entry.
Proof. rewrite hash_seq_complete. apply elem_of_map_to_list. Qed.

Lemma HasBundleExpired_exact (entry : YbQueryDiagnosticsEntry) (now : Z) :
  in_int64 (diagnostics_interval_sec (params (metadata entry)) * USECS_PER_SEC) →
  in_int64 (start_time (metadata entry) +
            diagnostics_interval_sec (params (metadata entry)) * USECS_PER_SEC) →
  HasBundleExpired entry now = true ↔
  start_time (metadata entry) +
    diagnostics_interval_sec (params (metadata entry)) * USECS_PER_SEC ≤ now.
Proof.
  unfold in_int64, HasBundleExpired, to_int64. intros H1 H2.
  rewrite (Z.mod_small (_ * _ + _)) by lia.
  replace (_ * _ + 2 ^ 63 - 2 ^ 63) with
    (diagnostics_interval_sec (params (metadata entry)) * USECS_PER_SEC) by lia.
  rewrite Z.mod_small by lia.
  rewrite Z.geb_leb, Z.leb_le. lia.
Qed.

End Sweep.

(** ** Invariants of the shared memory *)

Section Invariants.
Context `{Host}.

Lemma ExecutorEnd_state_accumulates (queryDesc : QueryDesc) (sh : Shmem)
    (entry : YbQueryDiagnosticsEntry) (ps : list ParamExternData) :
  bundles_in_progress sh !! to_int64 (queryId queryDesc) = Some entry →
  query_params queryDesc = Some ps →
  double_le (int_to_double (bind_var_query_min_duration_ms (params (metadata entry))))
    (totaltime_ms queryDesc) = true →
  ExecutorEnd_state queryDesc sh =
    set_in_progress
      (<[to_int64 (queryId queryDesc) :=
           (AccumulateBindVariables entry (totaltime_ms queryDesc) ps).1]>
         (bundles_in_progress sh)) sh.
Proof.
  intros Hentry Hps Hle. unfold ExecutorEnd_state, YbQueryDiagnostics_ExecutorEnd.
  rewrite Hentry, Hps, Hle.
  by destruct (AccumulateBindVariables _ _ _).
Qed.

Lemma ExecutorEnd_state_not_bundled (queryDesc : QueryDesc) (sh : Shmem) :
  bundles_in_progress sh !! to_int64 (queryId queryDesc) = None →
  ExecutorEnd_state queryDesc sh = sh.
Proof.
  intros Hnone. unfold ExecutorEnd_state, YbQueryDiagnostics_ExecutorEnd.
  rewrite Hnone. by destruct sh.
Qed.


(** The hash table after a sweep: expired entries are gone, the others
    are as they were. *)
Lemma sweep_table (now : Z) (sh : Shmem) (fs : FileSystem) :
  table_wf (bundles_in_progress sh) →
  let sh' := (RemoveExpiredEntries now (sh, fs)).1 in
  (∀ k entry, bundles_in_progress sh !! k = Some entry →
     (HasBundleExpired entry now = true → bundles_in_progress sh' !! k = None) ∧
     (HasBundleExpired entry now = false → bundles_in_progress sh' !! k = Some entry)) ∧
  (∀ k, bundles_in_progress sh !! k = None → bundles_in_progress sh' !! k = None).
Proof.
  intros Hwf sh'.
  destruct (sweep_fold now (hash_seq (bundles_in_progress sh)) sh fs) as [Ht _].
  change (foldl _ (sh, fs) _).1 with sh' in Ht.
  split.
  - intros k entry Hk.
    assert ((k, entry) ∈ hash_seq (bundles_in_progress sh)) as Hin
      by (by apply hash_seq_lookup).
    split.
    + intros He. rewrite Ht.
      rewrite <- (Hwf k entry Hk).
      apply (fold_delete_lookup_removed now _ _ (k, entry)); done.
    + intros He. rewrite Ht, fold_delete_lookup_kept; [done|].
      intros [k' e'] Hin' He' Hq. simpl in Hq.
      apply hash_seq_lookup in Hin'.
      rewrite (Hwf k' e' Hin') in Hq. subst k'.
      rewrite Hk in Hin'. injection Hin' as <-.
      unfold is_expired in He'. simpl in He'. congruence.
  - intros k Hk. rewrite Ht. by apply fold_delete_lookup_None.
Qed.

Lemma table_wf_init : table_wf (bundles_in_progress YbQueryDiagnosticsShmemInit).
Proof. intros k entry. simpl. by rewrite lookup_empty. Qed.

Lemma table_wf_begin (now : Z) (fcinfo : FunctionCallInfo) (sh : Shmem) :
  table_wf (bundles_in_progress sh) →
  table_wf (bundles_in_progress (yb_query_diagnostics now fcinfo sh).1).
Proof.
  intros Hwf. unfold yb_query_diagnostics.
  destruct YBIsQueryDiagnosticsEnabled; [|done]. simpl.
  destruct (FetchParams fcinfo) as [p|e]; [|done].
  destruct (ConstructDiagnosticsPath _) as [md|e]; [|done].
  unfold InsertNewBundleInfo.
  destruct (bundles_in_progress sh !! query_id (params md)) eqn:Hfound; [done|].
  destruct (hash_enter_room _); [|done]. simpl.
  intros k entry. rewrite lookup_insert. case_decide as Hk.
  - by intros [= <-].
  - apply Hwf.
Qed.


Lemma table_wf_sweep (now : Z) (sh : Shmem) (fs : FileSystem) :
  table_wf (bundles_in_progress sh) →
  table_wf (bundles_in_progress (RemoveExpiredEntries now (sh, fs)).1).
Proof.
  intros Hwf k entry Hk.
  destruct (sweep_table now sh fs Hwf) as (Hentries & Hnone).
  destruct (bundles_in_progress sh !! k) as [entry0|] eqn:Hk0.
  - destruct (Hentries k entry0 Hk0) as (Hgone & Hkept).
    destruct (HasBundleExpired entry0 now) eqn:He.
    + rewrite Hgone in Hk by done. discriminate.
    + rewrite Hkept in Hk by done. injection Hk as <-. by apply Hwf.
  - rewrite Hnone in Hk by done. discriminate.
Qed.

End Invariants.

(** ** Bundles from the first sample to the status report *)

Section Bundles.
Context `{Host}.

(** C5 (amended). For an entry whose bind variable buffer is empty,
    [DumpToFile] returns success with the description "No data captured"
    and leaves the files as they are; when the entry has expired and the
    directory of the bundle can be created (or exists), the sweep writes no
    file and records a completed bundle with that description and status
    success, which is what the slot under the cursor then holds. *)
Theorem empty_bundle_outcome (entry : YbQueryDiagnosticsEntry) (now : Z)
    (sh : Shmem) (fs : FileSystem) :
  c_str (bind_vars entry) = [] →
  (∀ dir file_name description fs0,
     DumpToFile dir file_name (bind_vars entry) description fs0 =
       (fs0, DIAGNOSTICS_SUCCESS, lit "No data captured")) ∧
  (HasBundleExpired entry now = true →
   pg_mkdir_p_ok (path (metadata entry)) = true →
   let st' := RemoveExpiredEntry now (sh, fs) entry in
   st'.2 = fs ∧
   bundles_completed st'.1 =
     InsertCompletedBundleInfo (metadata entry) DIAGNOSTICS_SUCCESS
       (lit "No data captured") (bundles_completed sh) ∧
   (ring_wf (bundles_completed sh) →
    ∃ b, bundles (bundles_completed st'.1) !! Z.to_nat (index (bundles_completed sh))
           = Some b ∧
         bundle_metadata b = metadata entry ∧
         bundle_status b = DIAGNOSTICS_SUCCESS)).
Proof.
  intros Hempty. split.
  - intros. by apply DumpToFile_no_data.
  - intros He Hmk st'. unfold st', RemoveExpiredEntry. rewrite He, Hmk.
    cbn [negb]. rewrite DumpToFile_no_data by done. cbn [fst snd bundles_completed].
    split; [done|]. split; [done|].
    intros (Hi & Hmax & Hlen). cbn [InsertCompletedBundleInfo bundles].
    destruct (lookup_lt_is_Some_2 (bundles (bundles_completed sh))
                (Z.to_nat (index (bundles_completed sh)))) as [b Hb]; [lia|].
    eexists. rewrite list_lookup_alter_eq, Hb. simpl. done.
Qed.


(** C9 (amended). Whenever the executor hook formats the parameters of a
    sample, the lock of the hash table is held in shared mode and no other
    lock is held: the mutex of the entry has been released, the table lock
    has not. *)
Theorem format_under_shared_table_lock (queryDesc : QueryDesc) (sh : Shmem) (i : nat) :
  let trace := (YbQueryDiagnostics_ExecutorEnd queryDesc sh).2 in
  trace !! i = Some EvFormatParams →
  locks_held (take i trace) = [(bundles_in_progress_lock, LW_SHARED)].
Proof.
  intros trace. unfold trace, YbQueryDiagnostics_ExecutorEnd.
  assert (∀ l, filter (λ lm : lock * lock_mode, lm.1 ≠ l)
                 [(l, LW_EXCLUSIVE); (bundles_in_progress_lock, LW_SHARED)]
               = filter (λ lm : lock * lock_mode, lm.1 ≠ l)
                   [(bundles_in_progress_lock, LW_SHARED)]) as Hdrop.
  { intros l. by rewrite filter_cons_False by (simpl; by intros ?). }
  destruct (bundles_in_progress sh !! to_int64 (queryId queryDesc)) as [entry|].
  2:{ cbn [snd app]. destruct i as [|[|[|i]]]; by cbn. }
  destruct (query_params queryDesc) as [ps|].
  2:{ cbn [snd app]. destruct i as [|[|[|i]]]; by cbn. }
  destruct (double_le _ _).
  2:{ cbn [snd app]. destruct i as [|[|[|i]]]; by cbn. }
  unfold AccumulateBindVariables.
  case_bool_decide.
  - cbn [snd app]. destruct i as [|[|[|[|[|i]]]]]; by cbn.
  - cbn [snd app]. destruct i as [|[|[|[|[|[|[|[|i]]]]]]]]; try by cbn.
    intros _. cbn [take]. unfold locks_held. cbn [foldl held_after_event].
    rewrite Hdrop. rewrite filter_cons_True; [done|]. simpl. done.
Qed.

End Bundles.

(** ** Well-formed shared memory is kept *)

Section KeptInvariants.
Context `{Host}.

Lemma FetchParams_Ok_valid (fcinfo : FunctionCallInfo) (p : YbQueryDiagnosticsParams) :
  FetchParams fcinfo = Ok p →
  params_valid p ∧
  p = {| query_id := PG_ARG0 fcinfo;
         diagnostics_interval_sec := PG_ARG1 fcinfo;
         explain_sample_rate := PG_ARG2 fcinfo;
         explain_analyze := PG_ARG3 fcinfo;
         explain_dist := PG_ARG4 fcinfo;
         explain_debug := PG_ARG5 fcinfo;
         bind_var_query_min_duration_ms := PG_ARG6 fcinfo |}.
Proof.
  intros Hp.
  assert (is_error (FetchParams fcinfo) = false) as Hok by (by rewrite Hp).
  assert (¬ (PG_ARG0 fcinfo = 0 ∨ PG_ARG1 fcinfo ≤ 0 ∨
             PG_ARG2 fcinfo < 0 ∨ 100 < PG_ARG2 fcinfo ∨ PG_ARG6 fcinfo < 0)) as Hvalid.
  { intros Hbad. apply FetchParams_invalid_iff in Hbad. congruence. }
  unfold FetchParams in Hp. simpl in Hp.
  repeat (case_match; try discriminate). injection Hp as <-.
  split; [|done]. unfold params_valid. simpl. lia.
Qed.

Lemma no_nul_lit_path_parts :
  no_nul (lit "/") ∧ no_nul (lit "query-diagnostics").
Proof. split; by repeat constructor. Qed.

Lemma ConstructDiagnosticsPath_Ok_path (md md' : YbQueryDiagnosticsMetadata) :
  ConstructDiagnosticsPath md = Ok md' →
  no_nul (path md') ∧ (length (path md') < MAXPGPATH)%nat ∧
  path md' =
    c_str DataDir ++ lit "/query-diagnostics/" ++ fmt_d (query_id (params md)) ++
    lit "/" ++ fmt_d (to_int32 (to_uint32 (hash_any (int64_bytes (start_time md))))) ++
    lit "/".
Proof.
  unfold ConstructDiagnosticsPath. case_bool_decide as Hlen; [discriminate|].
  intros [= <-]. destruct no_nul_lit_path_parts as [Hs Hq].
  assert (no_nul (c_str DataDir ++ lit "/" ++ lit "query-diagnostics" ++ lit "/" ++
                  fmt_d (query_id (params md)) ++ lit "/" ++
                  fmt_d (to_int32 (to_uint32 (hash_any (int64_bytes (start_time md))))) ++
                  lit "/")) as Hnn.
  { apply no_nul_app; [apply c_str_no_nul|].
    apply no_nul_app; [exact Hs|]. apply no_nul_app; [exact Hq|].
    apply no_nul_app; [exact Hs|]. apply no_nul_app; [apply no_nul_fmt_d|].
    apply no_nul_app; [exact Hs|]. apply no_nul_app; [apply no_nul_fmt_d | exact Hs]. }
  split; [exact Hnn|].
  split; [apply Nat.nle_gt in Hlen; exact Hlen | reflexivity].
Qed.

Lemma entry_ok_accumulate (k : Z) (entry : YbQueryDiagnosticsEntry)
    (t : spec_float) (ps : list ParamExternData) :
  entry_ok k entry → entry_ok k (AccumulateBindVariables entry t ps).1.
Proof.
  intros (Hk & Hp & Hnn & Hlen & s & Hs).
  destruct (AccumulateBindVariables_holds entry s t ps Hs) as [Hmd Hs'].
  unfold entry_ok. rewrite Hmd. do 4 (split; [done|]). eauto.
Qed.

Lemma table_ok_wf (t : gmap Z YbQueryDiagnosticsEntry) : table_ok t → table_wf t.
Proof. intros Hok k entry Hk. by destruct (Hok k entry Hk). Qed.

Lemma table_ok_begin (now : Z) (fcinfo : FunctionCallInfo) (sh : Shmem) :
  (0 < YB_QD_MAX_BIND_VARS_LEN)%nat →
  table_ok (bundles_in_progress sh) →
  table_ok (bundles_in_progress (yb_query_diagnostics now fcinfo sh).1).
Proof.
  intros Hpos Hok. unfold yb_query_diagnostics.
  destruct YBIsQueryDiagnosticsEnabled; [|done]. simpl.
  destruct (FetchParams fcinfo) as [p|e] eqn:Hp; [|done].
  destruct (ConstructDiagnosticsPath _) as [md|e] eqn:Hmd; [|done].
  unfold InsertNewBundleInfo.
  destruct (bundles_in_progress sh !! query_id (params md)) eqn:Hfound; [done|].
  destruct (hash_enter_room _); [|done]. simpl.
  intros k entry. rewrite lookup_insert. case_decide as Hk; [|apply Hok].
  intros [= <-]. unfold entry_ok. simpl.
  destruct (ConstructDiagnosticsPath_Ok _ _ Hmd) as [Hparams _]. simpl in Hparams.
  destruct (ConstructDiagnosticsPath_Ok_path _ _ Hmd) as (Hnn & Hlen & _).
  destruct (FetchParams_Ok_valid _ _ Hp) as [Hvalid _].
  split; [done|]. split; [by rewrite Hparams|]. do 2 (split; [done|]).
  exists []. apply (new_entry_holds md Hpos).
Qed.

Lemma table_ok_hook (queryDesc : QueryDesc) (sh : Shmem) :
  table_ok (bundles_in_progress sh) →
  table_ok (bundles_in_progress (ExecutorEnd_state queryDesc sh)).
Proof.
  intros Hok. unfold ExecutorEnd_state, YbQueryDiagnostics_ExecutorEnd.
  destruct (bundles_in_progress sh !! to_int64 (queryId queryDesc))
    as [entry|] eqn:Hentry; [|done].
  destruct (query_params queryDesc) as [ps|]; [|done].
  destruct (double_le _ _); [|done].
  pose proof (entry_ok_accumulate _ entry (totaltime_ms queryDesc) ps
                (Hok _ _ Hentry)) as Hok'.
  destruct (AccumulateBindVariables _ _ _) as [entry' evs]. simpl in *.
  intros k e. rewrite lookup_insert. case_decide as Hk; [|apply Hok].
  intros [= <-]. by subst k.
Qed.

Lemma table_ok_sweep (now : Z) (sh : Shmem) (fs : FileSystem) :
  table_ok (bundles_in_progress sh) →
  table_ok (bundles_in_progress (RemoveExpiredEntries now (sh, fs)).1).
Proof.
  intros Hok k entry Hk.
  destruct (sweep_table now sh fs (table_ok_wf _ Hok)) as (Hentries & Hnone).
  destruct (bundles_in_progress sh !! k) as [entry0|] eqn:Hk0.
  - destruct (Hentries k entry0 Hk0) as (Hgone & Hkept).
    destruct (HasBundleExpired entry0 now) eqn:He.
    + rewrite Hgone in Hk by done. discriminate.
    + rewrite Hkept in Hk by done. injection Hk as <-. by apply Hok.
  - rewrite Hnone in Hk by done. discriminate.
Qed.

(** X1. Every entry of the table of bundles in progress stays well formed:
    it is stored under its own query id, its parameters are the validated
    ones (so the key is never 0), its path has no NUL and fits [MAXPGPATH],
    and its [bind_vars] array keeps its full size with a terminating NUL
    inside. This holds for the table of [YbQueryDiagnosticsShmemInit] and is
    kept by [yb_query_diagnostics], by the executor hook and by
    [RemoveExpiredEntries], whatever their arguments and whether they
    succeed or not. *)
Theorem entries_stay_well_formed (sh : Shmem) :
  (0 < YB_QD_MAX_BIND_VARS_LEN)%nat →
  table_ok (bundles_in_progress YbQueryDiagnosticsShmemInit) ∧
  (table_ok (bundles_in_progress sh) →
   (∀ now fcinfo, table_ok (bundles_in_progress (yb_query_diagnostics now fcinfo sh).1)) ∧
   (∀ queryDesc, table_ok (bundles_in_progress (ExecutorEnd_state queryDesc sh))) ∧
   (∀ now fs, table_ok (bundles_in_progress (RemoveExpiredEntries now (sh, fs)).1)) ∧
   (∀ k entry, bundles_in_progress sh !! k = Some entry →
      length (bind_vars entry) = YB_QD_MAX_BIND_VARS_LEN ∧
      (strlen (bind_vars entry) < YB_QD_MAX_BIND_VARS_LEN)%nat ∧
      k ≠ 0)).
Proof.
  intros Hpos. split.
  { intros k entry. simpl. by rewrite lookup_empty. }
  intros Hok. split; [|split; [|split]].
  - intros. by apply table_ok_begin.
  - intros. by apply table_ok_hook.
  - intros. by apply table_ok_sweep.
  - intros k entry Hk. destruct (Hok k entry Hk) as (Hq & Hvalid & _ & _ & s & Hs).
    destruct (buffer_holds_c_str _ _ Hs) as [_ Hstrlen].
    destruct Hs as (Ha & _ & Hlen).
    split; [|split].
    + rewrite Ha, length_app. unfold zeroed. rewrite length_replicate. lia.
    + lia.
    + destruct Hvalid as [Hne _]. by rewrite <- Hq.
Qed.

End KeptInvariants.

(** ** Descriptions stay inside their slots *)

Lemma to_int32_range (z : Z) : - 2 ^ 31 ≤ to_int32 z < 2 ^ 31.
Proof. unfold to_int32. pose proof (Z.mod_pos_bound (z + 2 ^ 31) (2 ^ 32)). lia. Qed.

Lemma CircularBufferMaxEntries_range `{Host} :
  - 2 ^ 31 ≤ CircularBufferMaxEntries < 2 ^ 31.
Proof. apply to_int32_range. Qed.

Lemma snprintf_bounded (size : nat) (formatted : list ascii) :
  no_nul (snprintf size formatted) ∧ (length (snprintf size formatted) ≤ size - 1)%nat.
Proof.
  unfold snprintf. split.
  - unfold no_nul. apply Forall_take, c_str_no_nul.
  - rewrite length_take. lia.
Qed.

Lemma description_fits_snprintf (formatted : list ascii) :
  description_fits (snprintf DESCRIPTION_LEN formatted).
Proof.
  destruct (snprintf_bounded DESCRIPTION_LEN formatted) as [Hnn Hlen].
  split; [done|]. unfold DESCRIPTION_LEN in *. lia.
Qed.

Lemma strlen_lt_of_nul (a : list ascii) (i : nat) :
  a !! i = Some NUL → (strlen a ≤ i)%nat.
Proof.
  revert i. induction a as [|c a IH]; intros i Hi; [done|].
  simpl. destruct (is_nul c) eqn:Hc; [lia|].
  destruct i as [|i]; simpl in Hi.
  - injection Hi as ->. done.
  - apply IH in Hi. lia.
Qed.

Lemma slot_terminated_write (old : BundleInfo) (md : YbQueryDiagnosticsMetadata)
    (status : Z) (d : cstring) :
  slot_terminated old → description_fits d →
  slot_terminated {| bundle_metadata := md; bundle_status := status;
                     bundle_description := memcpy_at (bundle_description old) 0 (c_str d) |}.
Proof.
  intros [Hlen Hlast] [Hnn Hd]. unfold slot_terminated, memcpy_at. simpl.
  rewrite length_inserts. split; [done|].
  rewrite list_lookup_inserts_ge; [done|].
  rewrite c_str_id by done. unfold DESCRIPTION_LEN in *. lia.
Qed.

Lemma ring_ok_insert (r : YbQueryDiagnosticsBundles) (c : completed) :
  ring_ok r → description_fits c.2 → ring_ok (insert_completed r c).
Proof.
  intros [Hwf Hslots] Hd. split; [by apply insert_completed_wf|].
  unfold insert_completed, InsertCompletedBundleInfo. simpl.
  apply Forall_alter; [done|]. intros b Hb Hbt.
  by apply slot_terminated_write.
Qed.

Section DescriptionBounds.
Context `{Host}.

Lemma DumpToFile_description_fits (dir file_name : cstring) (data : list ascii)
    (description : cstring) (fs : FileSystem) :
  description_fits description →
  description_fits (DumpToFile dir file_name data description fs).2.
Proof.
  intros Hd. unfold DumpToFile.
  destruct (starts_with_nul data); [apply description_fits_snprintf|].
  destruct (PathNameOpenFile _); simpl; try apply description_fits_snprintf.
  destruct (FileWrite _ _); simpl; try apply description_fits_snprintf. done.
Qed.

Lemma RemoveExpiredEntry_ring_ok (now : Z) (sh : Shmem) (fs : FileSystem)
    (entry : YbQueryDiagnosticsEntry) :
  ring_ok (bundles_completed sh) →
  ring_ok (bundles_completed (RemoveExpiredEntry now (sh, fs) entry).1).
Proof.
  intros Hok. unfold RemoveExpiredEntry.
  destruct (HasBundleExpired entry now); [|done].
  destruct (negb _).
  - cbn [fst bundles_completed].
    apply (ring_ok_insert _
             (metadata entry, DIAGNOSTICS_ERROR,
              snprintf DESCRIPTION_LEN
                (lit "Failed to create query diagnostics directory"))); [done|].
    exact (description_fits_snprintf _).
  - pose proof (DumpToFile_description_fits (path (metadata entry))
                  (lit "bind_variables.csv") (bind_vars entry) [] fs) as Hfits.
    destruct (DumpToFile _ _ _ _ _) as [[fs' status] description].
    cbn [fst snd bundles_completed] in *.
    apply (ring_ok_insert _ (metadata entry, status, description)); [done|].
    apply Hfits. split; [constructor | unfold DESCRIPTION_LEN; simpl; lia].
Qed.

Lemma sweep_ring_ok (now : Z) (l : list (Z * YbQueryDiagnosticsEntry))
    (st : Shmem * FileSystem) :
  ring_ok (bundles_completed st.1) →
  ring_ok (bundles_completed
             (foldl (λ st ke, RemoveExpiredEntry now st ke.2) st l).1).
Proof.
  revert st. induction l as [|ke l IH]; intros [sh fs] Hok; [done|].
  cbn [foldl]. apply IH. by apply RemoveExpiredEntry_ring_ok.
Qed.

(** X2. The circular buffer of completed bundles stays well formed: its
    cursor is a valid index, it has [max_entries] slots, and the description
    of every slot is a NUL-terminated text shorter than the slot. The buffer
    of [YbQueryDiagnosticsShmemInit] is well formed when
    [CircularBufferMaxEntries], computed with the wrap-around of the code,
    is positive. Starting a bundle and the executor hook do not touch the
    buffer; only the sweep writes to it, and it keeps a well-formed buffer
    well formed: every description it writes fits. *)
Theorem completed_ring_stays_well_formed (sh : Shmem) :
  (0 < CircularBufferMaxEntries →
   ring_ok (bundles_completed YbQueryDiagnosticsShmemInit)) ∧
  (∀ now fcinfo,
     bundles_completed (yb_query_diagnostics now fcinfo sh).1 = bundles_completed sh) ∧
  (∀ queryDesc,
     bundles_completed (ExecutorEnd_state queryDesc sh) = bundles_completed sh) ∧
  (ring_ok (bundles_completed sh) →
   (∀ now fs, ring_ok (bundles_completed (RemoveExpiredEntries now (sh, fs)).1)) ∧
   (∀ b, b ∈ bundles (bundles_completed sh) →
      (strlen (bundle_description b) < DESCRIPTION_LEN)%nat ∧
      (length (c_str (bundle_description b)) < DESCRIPTION_LEN)%nat)).
Proof.
  split; [|split; [|split]].
  - intros Hpos. split.
    + unfold ring_wf. simpl. rewrite length_replicate.
      pose proof CircularBufferMaxEntries_range. lia.
    + simpl. apply Forall_replicate. split; reflexivity.
  - intros now fcinfo. unfold yb_query_diagnostics.
    destruct YBIsQueryDiagnosticsEnabled; [|done]. simpl.
    destruct (FetchParams fcinfo); [|done].
    destruct (ConstructDiagnosticsPath _) as [md|]; [|done].
    unfold InsertNewBundleInfo.
    destruct (bundles_in_progress sh !! _); [done|].
    by destruct (hash_enter_room _).
  - intros qd. unfold ExecutorEnd_state, YbQueryDiagnostics_ExecutorEnd.
    by destruct (match bundles_in_progress sh !! _ with Some _ => _ | None => _ end).
  - intros Hok. split.
    + intros now fs. by apply sweep_ring_ok.
    + intros b Hb. destruct Hok as [_ Hslots].
      rewrite Forall_forall in Hslots. destruct (Hslots b Hb) as [Hlen Hlast].
      apply strlen_lt_of_nul in Hlast.
      assert (strlen (bundle_description b) < DESCRIPTION_LEN)%nat
        by (unfold DESCRIPTION_LEN in *; lia).
      split; [done|]. unfold c_str. rewrite length_take. lia.
Qed.

End DescriptionBounds.

(** ** The circular buffer before it wraps around *)

Section FreshRing.
Context `{Host}.

Lemma insert_all_fresh (cs : list completed) (written : list BundleInfo) (m : nat)
    (r : YbQueryDiagnosticsBundles) :
  bundles r = written ++ replicate m zero_BundleInfo →
  index r = Z.of_nat (length written) →
  max_entries r = Z.of_nat (length written + m) →
  max_entries r < 2 ^ 31 →
  (length cs ≤ m)%nat →
  bundles (insert_all_completed r cs) =
    written ++ (written_slot <$> cs) ++ replicate (m - length cs) zero_BundleInfo ∧
  max_entries (insert_all_completed r cs) = max_entries r.
Proof.
  revert written m r. induction cs as [|c cs IH]; intros written m r Hb Hi Hmax Hlt Hlen.
  - simpl. by rewrite Nat.sub_0_r.
  - simpl in Hlen. destruct m as [|m]; [lia|].
    change (insert_all_completed r (c :: cs))
      with (insert_all_completed (insert_completed r c) cs).
    assert (bundles (insert_completed r c)
            = (written ++ [written_slot c]) ++ replicate m zero_BundleInfo) as Hb1.
    { unfold insert_completed, InsertCompletedBundleInfo. cbn [bundles].
      rewrite Hb, Hi, Nat2Z.id.
      rewrite <- (Nat.add_0_r (length written)) at 1.
      rewrite alter_app_r. simpl. by rewrite <- app_assoc. }
    destruct cs as [|c' cs'].
    + change (insert_all_completed (insert_completed r c) []) with (insert_completed r c).
      rewrite Hb1, insert_completed_max_entries. simpl.
      rewrite Nat.sub_0_r. by rewrite <- app_assoc.
    + simpl in Hlen.
      destruct (IH (written ++ [written_slot c]) m (insert_completed r c)) as [Hb' Hmax'].
      * exact Hb1.
      * unfold insert_completed, InsertCompletedBundleInfo. cbn [index max_entries].
        rewrite to_int32_small by lia.
        rewrite bool_decide_eq_false_2 by lia.
        rewrite length_app. simpl. lia.
      * rewrite insert_completed_max_entries, Hmax, length_app. simpl. lia.
      * by rewrite insert_completed_max_entries.
      * simpl. lia.
      * split; [|by rewrite Hmax'].
        rewrite Hb'. rewrite <- app_assoc. simpl. done.
Qed.

Lemma output_completed_written (c : completed) :
  query_id (params c.1.1) ≠ 0 → description_fits c.2 →
  output_completed (written_slot c) = Some (completed_row c).
Proof.
  intros Hq [Hnn Hlen]. unfold output_completed, written_slot.
  cbn [bundle_metadata bundle_status bundle_description].
  rewrite bool_decide_eq_true_2 by done.
  rewrite (c_str_id c.2) by done.
  rewrite memcpy_description_fresh by done. by destruct c as [[md st] d].
Qed.

Lemma output_completed_zero : output_completed zero_BundleInfo = None.
Proof. reflexivity. Qed.

Lemma omap_output_completed_zero (n : nat) :
  omap output_completed (replicate n zero_BundleInfo) = [].
Proof.
  induction n as [|n IHn]; [done|].
  cbn [replicate omap list_omap]. rewrite output_completed_zero. exact IHn.
Qed.

(** X3. For a circular buffer with at least one slot
    ([CircularBufferMaxEntries], computed with the wrap-around of the code,
    is positive) and until it wraps around (at most that many completed
    bundles since [YbQueryDiagnosticsShmemInit]), the status report lists
    the completed bundles exactly as they were recorded and in the order of
    their completion: metadata, status and description. The query ids are
    non-zero and the descriptions fit a slot, as those that the sweep
    records do. *)
Theorem fresh_ring_reports_insertions (cs : list completed) :
  0 < CircularBufferMaxEntries →
  (length cs ≤ Z.to_nat CircularBufferMaxEntries)%nat →
  Forall (λ c : completed, query_id (params c.1.1) ≠ 0 ∧ description_fits c.2) cs →
  ProcessCompletedBundles
    (insert_all_completed (bundles_completed YbQueryDiagnosticsShmemInit) cs)
  = completed_row <$> cs.
Proof.
  intros Hpos Hlen Hcs.
  assert (CircularBufferMaxEntries < 2 ^ 31) as Hlt
    by (pose proof CircularBufferMaxEntries_range; lia).
  destruct (insert_all_fresh cs [] (Z.to_nat CircularBufferMaxEntries)
              (bundles_completed YbQueryDiagnosticsShmemInit)) as [Hb Hmax];
    [done | done | simpl; lia | done | done |].
  unfold ProcessCompletedBundles. rewrite Hmax, Hb. simpl.
  rewrite take_ge.
  2:{ rewrite length_app, length_fmap, length_replicate. lia. }
  rewrite omap_app.
  rewrite omap_output_completed_zero, app_nil_r. clear Hb Hlen Hmax.
  induction Hcs as [|c cs [Hq Hd] _ IH]; [done|].
  rewrite !fmap_cons. cbn [omap list_omap].
  rewrite output_completed_written by done. f_equal. exact IH.
Qed.

End FreshRing.

(** ** The status report *)

Section StatusReport.
Context `{Host}.

Lemma omap_output_completed_bounded (bs : list BundleInfo) :
  (length (omap output_completed bs) ≤ length bs)%nat ∧
  Forall (λ row, row_query_id row ≠ 0) (omap output_completed bs).
Proof.
  induction bs as [|b bs [Hl Hq]]; [split; [done | constructor]|].
  cbn [omap list_omap]. destruct (output_completed b) as [row|] eqn:Hrow.
  - split; [simpl; lia|]. constructor; [|exact Hq].
    unfold output_completed in Hrow. case_bool_decide as Hb; [|discriminate].
    by injection Hrow as <-.
  - split; [simpl; lia | exact Hq].
Qed.

Lemma ProcessCompletedBundles_bounded (r : YbQueryDiagnosticsBundles) :
  (length (ProcessCompletedBundles r) ≤ Z.to_nat (max_entries r))%nat ∧
  Forall (λ row, row_query_id row ≠ 0) (ProcessCompletedBundles r).
Proof.
  unfold ProcessCompletedBundles.
  destruct (omap_output_completed_bounded
              (take (Z.to_nat (max_entries r)) (bundles r))) as [Hl Hq].
  split; [|exact Hq]. rewrite length_take in Hl. lia.
Qed.

(** X4. [yb_get_query_diagnostics_status] succeeds exactly when the
    feature is enabled and the caller accepts a materialized set of
    composite rows. Its rows are the bundles in progress, one per entry with
    status [In Progress] and an empty description, followed by the completed
    bundles, at most [max_entries] of them and none with query id 0. *)
Theorem status_report_structure (rsinfo : ReturnSetInfo) (sh : Shmem) :
  (is_error (yb_get_query_diagnostics_status rsinfo sh) = false ↔
   YBIsQueryDiagnosticsEnabled = true ∧ rsinfo_is_set rsinfo = true ∧
   allows_materialize rsinfo = true ∧ result_is_composite rsinfo = true) ∧
  ∀ rows, yb_get_query_diagnostics_status rsinfo sh = Ok rows →
    ∃ active completed,
      rows = active ++ completed ∧
      length active = size (bundles_in_progress sh) ∧
      Forall (λ row, row_status row = lit "In Progress" ∧ row_description row = [])
        active ∧
      (table_wf (bundles_in_progress sh) →
       row_query_id <$> active ≡ₚ (map_to_list (bundles_in_progress sh)).*1) ∧
      (length completed ≤ Z.to_nat (max_entries (bundles_completed sh)))%nat ∧
      Forall (λ row, row_query_id row ≠ 0) completed.
Proof.
  unfold yb_get_query_diagnostics_status. split.
  - destruct YBIsQueryDiagnosticsEnabled, (rsinfo_is_set rsinfo),
      (allows_materialize rsinfo), (result_is_composite rsinfo); simpl;
      split; (done || by intros (? & ? & ? & ?)).
  - intros rows.
    destruct YBIsQueryDiagnosticsEnabled; simpl; [|discriminate].
    destruct (rsinfo_is_set rsinfo); simpl; [|discriminate].
    destruct (allows_materialize rsinfo); simpl; [|discriminate].
    destruct (result_is_composite rsinfo); simpl; [|discriminate].
    intros [= <-].
    exists (ProcessActiveBundles (bundles_in_progress sh)),
           (ProcessCompletedBundles (bundles_completed sh)).
    split; [done|].
    destruct (ProcessCompletedBundles_bounded (bundles_completed sh)) as [Hlen Hq].
    unfold ProcessActiveBundles.
    split; [|split; [|split; [|split; [exact Hlen | exact Hq]]]].
    + rewrite length_fmap, hash_seq_complete. by rewrite length_map_to_list.
    + apply Forall_fmap, Forall_forall. by intros [k e] _.
    + intros Hwf. rewrite <- list_fmap_compose.
      rewrite <- hash_seq_complete.
      assert (∀ A (l1 l2 : list A), l1 = l2 → l1 ≡ₚ l2) as Heq by (by intros ? ? ? ->).
      apply Heq. apply Forall_fmap_ext_1, Forall_forall.
      intros [k e] Hin. apply hash_seq_lookup in Hin. simpl. by apply Hwf.
Qed.

End StatusReport.

(** ** What the executor hook changes *)

Section HookEffects.
Context `{Host}.

(** X5. One run of the executor hook does not touch the completed bundles,
    creates and removes no entry, and leaves the entries of all other query
    ids as they are. It changes nothing when the query has no bundle, no
    parameter list, or ran for less than the bundle's minimum duration;
    otherwise the bundle keeps its metadata and its buffer either stays as
    it is or gains exactly the line of this execution at its end. *)
Theorem hook_only_appends_to_its_bundle (queryDesc : QueryDesc) (sh : Shmem) :
  let key := to_int64 (queryId queryDesc) in
  let sh' := ExecutorEnd_state queryDesc sh in
  bundles_completed sh' = bundles_completed sh ∧
  dom (bundles_in_progress sh') = dom (bundles_in_progress sh) ∧
  (∀ k, k ≠ key → bundles_in_progress sh' !! k = bundles_in_progress sh !! k) ∧
  (bundles_in_progress sh !! key = None → sh' = sh) ∧
  (query_params queryDesc = None → sh' = sh) ∧
  (∀ entry, bundles_in_progress sh !! key = Some entry →
     double_le (int_to_double (bind_var_query_min_duration_ms (params (metadata entry))))
       (totaltime_ms queryDesc) = false →
     sh' = sh) ∧
  (∀ entry s, bundles_in_progress sh !! key = Some entry →
     buffer_holds (bind_vars entry) s →
     ∃ entry', bundles_in_progress sh' !! key = Some entry' ∧
       metadata entry' = metadata entry ∧
       (c_str (bind_vars entry') = s ∨
        ∃ ps, query_params queryDesc = Some ps ∧
              c_str (bind_vars entry')
              = s ++ bind_variables_line (totaltime_ms queryDesc) ps)).
Proof.
  intros key sh'. unfold sh', ExecutorEnd_state, YbQueryDiagnostics_ExecutorEnd.
  fold key. destruct sh as [t r]. cbn [bundles_in_progress bundles_completed].
  destruct (t !! key) as [entry|] eqn:Hentry.
  2:{ cbn [fst set_in_progress bundles_in_progress bundles_completed].
      repeat split; try done. }
  destruct (query_params queryDesc) as [ps|] eqn:Hps.
  2:{ cbn [fst set_in_progress bundles_in_progress bundles_completed].
      repeat split; try done.
      intros e s [= <-] Hs. exists entry. split; [done|]. split; [done|].
      left. by destruct (buffer_holds_c_str _ _ Hs). }
  destruct (double_le _ _) eqn:Hle.
  2:{ cbn [fst set_in_progress bundles_in_progress bundles_completed].
      repeat split; try done.
      intros e s [= <-] Hs. exists entry. split; [done|]. split; [done|].
      left. by destruct (buffer_holds_c_str _ _ Hs). }
  pose proof (AccumulateBindVariables_holds entry) as Hacc.
  destruct (AccumulateBindVariables entry (totaltime_ms queryDesc) ps)
    as [entry' evs] eqn:Hrun.
  cbn [fst set_in_progress bundles_in_progress bundles_completed].
  split; [done|]. split.
  { apply dom_insert_lookup_L. by rewrite Hentry. }
  split; [intros k Hk; by rewrite lookup_insert_ne|].
  split; [done|]. split; [done|]. split.
  { intros e [= <-] Hle'. congruence. }
  intros e s [= <-] Hs. exists entry'. rewrite lookup_insert_eq. split; [done|].
  destruct (Hacc s (totaltime_ms queryDesc) ps Hs) as [Hmd Hs'].
  rewrite Hrun in Hmd, Hs'. cbn [fst] in Hmd, Hs'. split; [done|].
  destruct (buffer_holds_c_str _ _ Hs') as [-> _].
  case_bool_decide; [right; by exists ps | by left].
Qed.

(** X6. The executor hook releases every lock that it takes: no lock is
    held at its end, the spinlock of an entry is taken only under the shared
    table lock and released by the very next event, and the next
    [ExecutorEnd] hook is called last, with no lock held. *)
Theorem hook_lock_discipline (queryDesc : QueryDesc) (sh : Shmem) :
  let trace := (YbQueryDiagnostics_ExecutorEnd queryDesc sh).2 in
  locks_held trace = [] ∧
  (∀ i l, trace !! i = Some (EvSpinLockAcquire l) →
     locks_held (take i trace) = [(bundles_in_progress_lock, LW_SHARED)] ∧
     trace !! S i = Some (EvSpinLockRelease l)) ∧
  (∀ i, trace !! i = Some EvNextExecutorEnd →
     S i = length trace ∧ locks_held (take i trace) = []).
Proof.
  intros trace. unfold trace, YbQueryDiagnostics_ExecutorEnd.
  assert (∀ l, filter (λ lm : lock * lock_mode, lm.1 ≠ l)
                 [(l, LW_EXCLUSIVE); (bundles_in_progress_lock, LW_SHARED)]
               = filter (λ lm : lock * lock_mode, lm.1 ≠ l)
                   [(bundles_in_progress_lock, LW_SHARED)]) as Hdrop.
  { intros l. by rewrite filter_cons_False by (simpl; by intros ?). }
  assert (∀ k, filter (λ lm : lock * lock_mode, lm.1 ≠ entry_mutex k)
                 [(bundles_in_progress_lock, LW_SHARED)]
               = [(bundles_in_progress_lock, LW_SHARED)]) as Hkeep.
  { intros k. by rewrite filter_cons_True. }
  assert (∀ tr, tr = [EvLWLockAcquire bundles_in_progress_lock LW_SHARED;
                      EvLWLockRelease bundles_in_progress_lock; EvNextExecutorEnd] →
            locks_held tr = [] ∧
            (∀ i l, tr !! i = Some (EvSpinLockAcquire l) →
               locks_held (take i tr) = [(bundles_in_progress_lock, LW_SHARED)] ∧
               tr !! S i = Some (EvSpinLockRelease l)) ∧
            (∀ i, tr !! i = Some EvNextExecutorEnd →
               S i = length tr ∧ locks_held (take i tr) = [])) as Hshort.
  { intros tr ->. split; [reflexivity|]. split.
    - intros [|[|[|i]]] l; by cbn.
    - intros [|[|[|i]]]; by cbn. }
  destruct (bundles_in_progress sh !! to_int64 (queryId queryDesc)) as [entry|];
    [|by apply Hshort].
  destruct (query_params queryDesc) as [ps|]; [|by apply Hshort].
  destruct (double_le _ _); [|by apply Hshort].
  unfold AccumulateBindVariables.
  set (m := entry_mutex (query_id (params (metadata entry)))).
  assert (m = entry_mutex (query_id (params (metadata entry)))) as Hm by done.
  clearbody m.
  case_bool_decide.
  - cbn [snd app]. split; [|split].
    + unfold locks_held. cbn [foldl held_after_event]. rewrite Hdrop, Hm, Hkeep.
      reflexivity.
    + intros [|[|[|[|[|i]]]]] l; cbn [lookup list_lookup]; try done.
      intros [= <-]. done.
    + intros [|[|[|[|[|i]]]]]; cbn [lookup list_lookup]; try done.
      intros _. split; [done|].
      cbn [take]. unfold locks_held. cbn [foldl held_after_event].
      rewrite Hdrop, Hm, Hkeep. reflexivity.
  - cbn [snd app]. split; [|split].
    + unfold locks_held. cbn [foldl held_after_event].
      rewrite Hdrop, Hm, Hkeep, <- Hm, Hdrop, Hm, Hkeep. reflexivity.
    + intros [|[|[|[|[|[|[|[|i]]]]]]]] l; cbn [lookup list_lookup]; try done.
      * intros [= <-]. done.
      * intros [= <-]. split; [|done].
        cbn [take]. unfold locks_held. cbn [foldl held_after_event].
        rewrite Hdrop, Hm, Hkeep. reflexivity.
    + intros [|[|[|[|[|[|[|[|i]]]]]]]]; cbn [lookup list_lookup]; try done.
      intros _. split; [done|].
      cbn [take]. unfold locks_held. cbn [foldl held_after_event].
      rewrite Hdrop, Hm, Hkeep, <- Hm, Hdrop, Hm, Hkeep. reflexivity.
Qed.

End HookEffects.

(** ** Sweeps, again *)

Section SweepAgain.
Context `{Host}.

Lemma HasBundleExpired_mono (entry : YbQueryDiagnosticsEntry) (now now' : Z) :
  now ≤ now' → HasBundleExpired entry now = true → HasBundleExpired entry now' = true.
Proof.
  unfold HasBundleExpired. rewrite !Z.geb_leb, !Z.leb_le. lia.
Qed.

Lemma sweep_nothing_expired (now : Z) (l : list (Z * YbQueryDiagnosticsEntry))
    (st : Shmem * FileSystem) :
  Forall (λ ke, HasBundleExpired ke.2 now = false) l →
  foldl (λ st ke, RemoveExpiredEntry now st ke.2) st l = st.
Proof.
  induction 1 as [|ke l Hke _ IH]; [done|].
  cbn [foldl]. by rewrite RemoveExpiredEntry_not_expired.
Qed.

(** X7. A sweep that finds no expired bundle changes neither shared
    memory nor the files, and a second sweep at the same or an earlier time
    changes nothing: each expired bundle is completed, and its file
    written, once. *)
Theorem sweep_is_idempotent (now now' : Z) (sh : Shmem) (fs : FileSystem) :
  table_wf (bundles_in_progress sh) →
  now' ≤ now →
  ((∀ k entry, bundles_in_progress sh !! k = Some entry →
      HasBundleExpired entry now = false) →
   RemoveExpiredEntries now (sh, fs) = (sh, fs)) ∧
  RemoveExpiredEntries now' (RemoveExpiredEntries now (sh, fs))
    = RemoveExpiredEntries now (sh, fs).
Proof.
  intros Hwf Hle.
  split.
  - intros Hnone. unfold RemoveExpiredEntries. apply sweep_nothing_expired.
    apply Forall_forall. intros [k e] Hin. apply hash_seq_lookup in Hin.
    by apply (Hnone k e).
  - destruct (sweep_table now sh fs Hwf) as [Hentries Hgone].
    destruct (RemoveExpiredEntries now (sh, fs)) as [sh1 fs1] eqn:Hrun.
    cbn [fst] in Hentries, Hgone.
    unfold RemoveExpiredEntries at 1. cbn [fst]. apply sweep_nothing_expired.
    apply Forall_forall. intros [k e] Hin. apply hash_seq_lookup in Hin. simpl.
    destruct (bundles_in_progress sh !! k) as [e0|] eqn:Hk0.
    + destruct (Hentries k e0 Hk0) as [Hrem Hkept].
      destruct (HasBundleExpired e0 now) eqn:He0.
      * rewrite Hrem in Hin by done. discriminate.
      * rewrite Hkept in Hin by done. injection Hin as <-.
        destruct (HasBundleExpired e0 now') eqn:He'; [|done].
        rewrite (HasBundleExpired_mono e0 now' now Hle He') in He0. discriminate.
    + rewrite Hgone in Hin by done. discriminate.
Qed.

Lemma DumpToFile_other_files (dir : cstring) (data : list ascii) (description : cstring)
    (fs : FileSystem) (f : cstring) :
  (c_str data ≠ [] → PathNameOpenFile (dump_path dir) = OpenOk → f ≠ dump_path dir) →
  (DumpToFile dir (lit "bind_variables.csv") data description fs).1.1 !! f = fs !! f.
Proof.
  intros Hf. unfold DumpToFile. fold (dump_path dir).
  destruct (starts_with_nul data) eqn:Hdata; [done|].
  assert (c_str data ≠ []) as Hne.
  { intros Hnil%starts_with_nul_c_str. congruence. }
  destruct (PathNameOpenFile (dump_path dir)) eqn:Hopen; cbn [fst]; try done.
  specialize (Hf Hne eq_refl).
  destruct (FileWrite _ _); cbn [fst];
    rewrite ?lookup_insert_ne by done; done.
Qed.

Lemma RemoveExpiredEntry_other_files (now : Z) (sh : Shmem) (fs : FileSystem)
    (entry : YbQueryDiagnosticsEntry) (f : cstring) :
  ¬ writes_file now entry f →
  (RemoveExpiredEntry now (sh, fs) entry).2 !! f = fs !! f.
Proof.
  intros Hf. unfold RemoveExpiredEntry.
  destruct (HasBundleExpired entry now) eqn:He; [|done].
  destruct (pg_mkdir_p_ok _) eqn:Hmk; [|done]. cbn [negb].
  pose proof (DumpToFile_other_files (path (metadata entry)) (bind_vars entry) [] fs f)
    as Hother.
  destruct (DumpToFile _ _ _ _ _) as [[fs' status] description].
  cbn [fst snd] in *. apply Hother. intros Hne Hopen ->. apply Hf.
  by repeat split.
Qed.

Lemma sweep_other_files (now : Z) (l : list (Z * YbQueryDiagnosticsEntry))
    (st : Shmem * FileSystem) (f : cstring) :
  Forall (λ ke, ¬ writes_file now ke.2 f) l →
  (foldl (λ st ke, RemoveExpiredEntry now st ke.2) st l).2 !! f = st.2 !! f.
Proof.
  intros Hl. revert st. induction Hl as [|ke l Hke _ IH]; intros [sh fs]; [done|].
  cbn [foldl]. rewrite IH. by apply RemoveExpiredEntry_other_files.
Qed.

(** X8. The sweep writes no file other than the [bind_variables.csv] of
    bundles that have expired with data in their buffer: every other file
    is left as it was. *)
Theorem sweep_writes_only_bundle_files (now : Z) (sh : Shmem) (fs : FileSystem)
    (f : cstring) :
  (∀ k entry, bundles_in_progress sh !! k = Some entry → ¬ writes_file now entry f) →
  (RemoveExpiredEntries now (sh, fs)).2 !! f = fs !! f.
Proof.
  intros Hf. unfold RemoveExpiredEntries.
  rewrite sweep_other_files; [done|].
  apply Forall_forall. intros [k e] Hin. apply hash_seq_lookup in Hin.
  by apply (Hf k e).
Qed.

(** X9. For a bundle with data, [DumpToFile] reports either success with
    an empty description or an error with a non-empty one that fits the
    slot, and touches no file other than the bundle's. If the file cannot be
    opened nothing is written; if the write fails the file is left empty
    and the status is an error; a write that returns is recorded as a
    success even when only a prefix of the data was written. *)
Theorem DumpToFile_outcomes (dir : cstring) (data : list ascii) (fs : FileSystem) :
  c_str data ≠ [] →
  let file := dump_path dir in
  let result := DumpToFile dir (lit "bind_variables.csv") data [] fs in
  let fs' := result.1.1 in
  let status := result.1.2 in
  let description := result.2 in
  (status = DIAGNOSTICS_SUCCESS ∧ description = [] ∨
   status = DIAGNOSTICS_ERROR ∧ description ≠ []) ∧
  description_fits description ∧
  (∀ f, f ≠ file → fs' !! f = fs !! f) ∧
  (PathNameOpenFile file ≠ OpenOk → fs' = fs) ∧
  (PathNameOpenFile file = OpenOk →
     ∃ content, fs' !! file = Some content ∧ content `prefix_of` c_str data) ∧
  (∀ m, PathNameOpenFile file = OpenFails m → status = DIAGNOSTICS_ERROR) ∧
  (∀ m, PathNameOpenFile file = OpenOk → FileWrite file (c_str data) = WriteFails m →
     status = DIAGNOSTICS_ERROR ∧ fs' !! file = Some []) ∧
  (∀ n, PathNameOpenFile file = OpenOk → FileWrite file (c_str data) = WriteReturns n →
     status = DIAGNOSTICS_SUCCESS ∧ fs' !! file = Some (take n (c_str data))).
Proof.
  intros Hne file result fs' status description.
  assert (starts_with_nul data = false) as Hdata.
  { destruct (starts_with_nul data) eqn:E; [|done].
    by apply starts_with_nul_c_str in E. }
  assert (description_fits description) as Hfits.
  { apply DumpToFile_description_fits. split; [constructor|].
    unfold DESCRIPTION_LEN. simpl. lia. }
  assert (∀ f, f ≠ file → fs' !! f = fs !! f) as Hother.
  { intros f Hf. by apply DumpToFile_other_files. }
  assert (∀ s : cstring, no_nul s → starts_with_nul s = true → s = []) as Hnil.
  { intros s Hs Hz%starts_with_nul_c_str. by rewrite c_str_id in Hz. }
  assert (∀ s : cstring, starts_with_nul s = false → s ≠ []) as Hcons.
  { by intros [|c s]. }
  unfold fs', status, description, result, file, DumpToFile in *.
  clear fs' status description result file.
  fold (dump_path dir) in *. rewrite Hdata in *.
  destruct (PathNameOpenFile (dump_path dir)) as [|m|msg] eqn:Hopen.
  - destruct (FileWrite (dump_path dir) (c_str data)) as [n|m|msg] eqn:Hwrite;
      cbn [fst snd] in *.
    + split; [by left|]. split; [done|]. split; [done|]. split; [done|].
      split; [intros _; eexists; split; [apply lookup_insert_eq | apply prefix_take]|].
      split; [done|]. split; [done|].
      intros n' _ [= <-]. split; [done | apply lookup_insert_eq].
    + split.
      { right. split; [done|]. apply Hcons. reflexivity. }
      split; [done|]. split; [done|]. split; [done|].
      split; [intros _; exists []; split; [apply lookup_insert_eq | apply prefix_nil]|].
      split; [done|]. split; [|done].
      intros m' _ [= <-]. split; [done | apply lookup_insert_eq].
    + split.
      { destruct (starts_with_nul (snprintf DESCRIPTION_LEN msg)) eqn:E.
        - left. split; [done|]. apply Hnil; [apply Hfits | done].
        - right. split; [done|]. by apply Hcons. }
      split; [done|]. split; [done|]. split; [done|].
      split; [intros _; exists []; split; [apply lookup_insert_eq | apply prefix_nil]|].
      split; [done|]. split; done.
  - cbn [fst snd] in *. split.
    { right. split; [done|]. apply Hcons. reflexivity. }
    split; [done|]. split; [done|]. split; [done|].
    split; [done|]. split; [done|]. split; done.
  - cbn [fst snd] in *. split.
    { destruct (starts_with_nul (snprintf DESCRIPTION_LEN msg)) eqn:E.
      - left. split; [done|]. apply Hnil; [apply Hfits | done].
      - right. split; [done|]. by apply Hcons. }
    split; [done|]. split; [done|]. split; [done|].
    split; [done|]. split; [done|]. split; done.
Qed.

End SweepAgain.

(** ** Finalization of expired bundles *)






Section Finalization.
Context `{Host}.







End Finalization.

Section Finalized.
Context `{Host}.


End Finalized.

(** ** The background worker *)

Lemma deliver_no_sigterm (sigs : list signal) (flags : WorkerFlags) :
  SIGTERM ∉ sigs → got_sigterm (foldl deliver flags sigs) = got_sigterm flags.
Proof.
  revert flags. induction sigs as [|sig sigs IH]; intros flags Hs; [done|].
  cbn [foldl]. rewrite IH by (intros ?; apply Hs; by right).
  destruct sig; [done|]. exfalso. apply Hs. by left.
Qed.

Lemma deliver_sigterm_sticky (sigs : list signal) (flags : WorkerFlags) :
  got_sigterm (foldl deliver flags sigs) = true →
  got_sigterm flags = true ∨ SIGTERM ∈ sigs.
Proof.
  revert flags. induction sigs as [|sig sigs IH]; intros flags Hs; [by left|].
  cbn [foldl] in Hs. destruct (IH _ Hs) as [Hf|Hin]; [|right; by right].
  destruct sig; [by left | right; by left].
Qed.

Lemma deliver_keeps_sigterm (sigs : list signal) (flags : WorkerFlags) :
  got_sigterm flags = true → got_sigterm (foldl deliver flags sigs) = true.
Proof.
  revert flags. induction sigs as [|sig sigs IH]; intros flags Hf; [done|].
  cbn [foldl]. apply IH. by destruct sig.
Qed.

Lemma deliver_sigterm_arrives (sigs : list signal) (flags : WorkerFlags) :
  SIGTERM ∈ sigs → got_sigterm (foldl deliver flags sigs) = true.
Proof.
  revert flags. induction sigs as [|sig sigs IH]; intros flags Hs.
  - by apply elem_of_nil in Hs.
  - cbn [foldl]. apply elem_of_cons in Hs as [<-|Hs]; [|by apply IH].
    by apply deliver_keeps_sigterm.
Qed.

Section WorkerRuns.
Context `{Host}.

Lemma sweep_keeps_absent (now : Z) (st : Shmem * FileSystem) (k : Z) :
  bundles_in_progress st.1 !! k = None →
  bundles_in_progress (RemoveExpiredEntries now st).1 !! k = None.
Proof.
  destruct st as [sh fs]. intros Hk.
  destruct (sweep_fold now (hash_seq (bundles_in_progress sh)) sh fs) as [Ht _].
  unfold RemoveExpiredEntries. cbn [fst] in *. rewrite Ht.
  by apply fold_delete_lookup_None.
Qed.

Lemma loop_keeps_absent (wakes : list WakeUp) (flags : WorkerFlags)
    (st : Shmem * FileSystem) (reloads : nat) (k : Z) :
  bundles_in_progress st.1 !! k = None →
  bundles_in_progress
    (worker_state (YbQueryDiagnosticsMain_loop wakes flags st reloads)).1 !! k = None.
Proof.
  revert flags st reloads.
  induction wakes as [|w wakes IH]; intros flags st reloads Hk; cbn [YbQueryDiagnosticsMain_loop].
  - by destruct (got_sigterm flags).
  - destruct (got_sigterm flags); [done|].
    destruct (postmaster_death w); [done|].
    destruct (got_sighup _); apply IH; by apply sweep_keeps_absent.
Qed.

Lemma loop_entry_fate (wakes : list WakeUp) (flags : WorkerFlags)
    (st : Shmem * FileSystem) (reloads : nat) (k : Z) (entry : YbQueryDiagnosticsEntry) :
  table_wf (bundles_in_progress st.1) →
  bundles_in_progress st.1 !! k = Some entry →
  let final :=
    bundles_in_progress
      (worker_state (YbQueryDiagnosticsMain_loop wakes flags st reloads)).1 in
  final !! k = Some entry ∨
  final !! k = None ∧
  ∃ w, w ∈ wakes ∧ postmaster_death w = false ∧
       HasBundleExpired entry (sweep_time w) = true.
Proof.
  revert flags st reloads.
  induction wakes as [|w wakes IH]; intros flags [sh fs] reloads Hwf Hk;
    cbn [YbQueryDiagnosticsMain_loop].
  - destruct (got_sigterm flags); by left.
  - destruct (got_sigterm flags); [by left|].
    destruct (postmaster_death w) eqn:Hpm; [by left|].
    destruct (sweep_table (sweep_time w) sh fs Hwf) as [Hentries _].
    destruct (Hentries k entry Hk) as [Hgone Hkept].
    pose proof (table_wf_sweep (sweep_time w) sh fs Hwf) as Hwf1.
    assert (∀ flags' reloads',
      let final := bundles_in_progress (worker_state
        (YbQueryDiagnosticsMain_loop wakes flags'
           (RemoveExpiredEntries (sweep_time w) (sh, fs)) reloads')).1 in
      final !! k = Some entry ∨
      final !! k = None ∧
      ∃ w0, w0 ∈ w :: wakes ∧ postmaster_death w0 = false ∧
            HasBundleExpired entry (sweep_time w0) = true) as Hstep.
    { intros flags' reloads'.
      destruct (HasBundleExpired entry (sweep_time w)) eqn:He.
      - right. split; [apply loop_keeps_absent; by apply Hgone|].
        exists w. split; [by left | done].
      - destruct (IH flags' _ reloads' Hwf1 (Hkept eq_refl))
          as [Hsame | (Hnone & w0 & Hin & Hpm0 & He0)]; [by left|].
        right. split; [done|]. exists w0. split; [by right | done]. }
    destruct (got_sighup _); apply Hstep.
Qed.

Lemma loop_removes_expired (before after : list WakeUp) (w : WakeUp)
    (flags : WorkerFlags) (st : Shmem * FileSystem) (reloads : nat)
    (k : Z) (entry : YbQueryDiagnosticsEntry) :
  table_wf (bundles_in_progress st.1) →
  bundles_in_progress st.1 !! k = Some entry →
  got_sigterm flags = false →
  Forall (λ w0, postmaster_death w0 = false ∧ no_sigterm w0) before →
  postmaster_death w = false →
  HasBundleExpired entry (sweep_time w) = true →
  bundles_in_progress
    (worker_state
       (YbQueryDiagnosticsMain_loop (before ++ w :: after) flags st reloads)).1 !! k
  = None.
Proof.
  intros Hwf Hk Hflags Hbefore Hpm He. revert flags st reloads Hwf Hk Hflags.
  induction Hbefore as [|w0 before (Hpm0 & Hs1 & Hs2) _ IH];
    intros flags [sh fs] reloads Hwf Hk Hflags.
  - cbn [app YbQueryDiagnosticsMain_loop]. rewrite Hflags, Hpm.
    destruct (sweep_table (sweep_time w) sh fs Hwf) as [Hentries _].
    destruct (Hentries k entry Hk) as [Hgone _].
    destruct (got_sighup _); apply loop_keeps_absent; by apply Hgone.
  - cbn [app YbQueryDiagnosticsMain_loop]. rewrite Hflags, Hpm0.
    destruct (sweep_table (sweep_time w0) sh fs Hwf) as [Hentries _].
    destruct (Hentries k entry Hk) as [Hgone Hkept].
    pose proof (table_wf_sweep (sweep_time w0) sh fs Hwf) as Hwf1.
    assert (∀ flags' reloads', got_sigterm flags' = false →
      bundles_in_progress (worker_state
        (YbQueryDiagnosticsMain_loop (before ++ w :: after) flags'
           (RemoveExpiredEntries (sweep_time w0) (sh, fs)) reloads')).1 !! k = None)
      as Hstep.
    { intros flags' reloads' Hflags'.
      destruct (HasBundleExpired entry (sweep_time w0)) eqn:He0.
      - apply loop_keeps_absent. by apply Hgone.
      - apply IH; [done | by apply Hkept | done]. }
    assert (got_sigterm (foldl deliver flags (signals_before w0)) = false) as Hf1
      by (by rewrite deliver_no_sigterm).
    destruct (got_sighup (foldl deliver flags (signals_before w0))); apply Hstep;
      by rewrite deliver_no_sigterm.
Qed.

(** X10. During a run of the background worker a bundle in progress is
    either left untouched or removed by a sweep at which it had expired.
    It is removed as soon as the worker wakes up at such a time, provided
    that no termination request and no death of the postmaster came
    earlier; the worker never adds an entry. *)
Theorem worker_removes_expired_bundles (startup : list signal) (wakes : list WakeUp)
    (sh : Shmem) (fs : FileSystem) (k : Z) (entry : YbQueryDiagnosticsEntry) :
  table_wf (bundles_in_progress sh) →
  bundles_in_progress sh !! k = Some entry →
  let final :=
    bundles_in_progress
      (worker_state (YbQueryDiagnosticsMain startup wakes (sh, fs))).1 in
  (final !! k = Some entry ∨
   final !! k = None ∧
   ∃ w, w ∈ wakes ∧ postmaster_death w = false ∧
        HasBundleExpired entry (sweep_time w) = true) ∧
  (∀ before w after,
     SIGTERM ∉ startup →
     wakes = before ++ w :: after →
     Forall (λ w0, postmaster_death w0 = false ∧ no_sigterm w0) before →
     postmaster_death w = false →
     HasBundleExpired entry (sweep_time w) = true →
     final !! k = None) ∧
  (∀ k', bundles_in_progress sh !! k' = None → final !! k' = None).
Proof.
  intros Hwf Hk final. split; [|split].
  - by apply loop_entry_fate.
  - intros before w after Hstart Hwakes Hbefore Hpm He. unfold final. rewrite Hwakes.
    apply (loop_removes_expired before after w _ (sh, fs) 0%nat k entry); try done.
    by rewrite deliver_no_sigterm.
  - intros k' Hk'. by apply loop_keeps_absent.
Qed.

Lemma loop_exit (wakes : list WakeUp) (flags : WorkerFlags)
    (st : Shmem * FileSystem) (reloads : nat) :
  let result := YbQueryDiagnosticsMain_loop wakes flags st reloads in
  match worker_status_of result with
  | Waiting =>
      got_sigterm flags = false ∧ Forall (λ w, postmaster_death w = false) wakes ∧
      worker_state result = foldl (λ st w, RemoveExpiredEntries (sweep_time w) st) st wakes
  | Exited code =>
      code = 0 ∧ got_sigterm (worker_flags result) = true ∧
        (got_sigterm flags = true ∨
         ∃ w, w ∈ wakes ∧ (SIGTERM ∈ signals_before w ∨ SIGTERM ∈ signals_during w)) ∨
      code = 1 ∧ ∃ w, w ∈ wakes ∧ postmaster_death w = true
  end.
Proof.
  revert flags st reloads.
  induction wakes as [|w wakes IH]; intros flags st reloads;
    cbn [YbQueryDiagnosticsMain_loop].
  - destruct (got_sigterm flags) eqn:Hf; cbn [worker_status_of worker_flags worker_state].
    + left. split; [done|]. split; [done | by left].
    + split; [done|]. split; [constructor | done].
  - destruct (got_sigterm flags) eqn:Hf; cbn [worker_status_of worker_flags worker_state].
    { left. split; [done|]. split; [done | by left]. }
    destruct (postmaster_death w) eqn:Hpm; cbn [worker_status_of].
    { right. split; [done|]. exists w. split; [by left | done]. }
    assert (∀ flags1 reloads1,
      got_sigterm flags1 = got_sigterm (foldl deliver flags (signals_before w)) →
      let result := YbQueryDiagnosticsMain_loop wakes
                      (foldl deliver flags1 (signals_during w))
                      (RemoveExpiredEntries (sweep_time w) st) reloads1 in
      match worker_status_of result with
      | Waiting =>
          false = false ∧ Forall (λ w, postmaster_death w = false) (w :: wakes) ∧
          worker_state result =
            foldl (λ st w, RemoveExpiredEntries (sweep_time w) st) st (w :: wakes)
      | Exited code =>
          code = 0 ∧ got_sigterm (worker_flags result) = true ∧
            (false = true ∨
             ∃ w0, w0 ∈ w :: wakes ∧
                   (SIGTERM ∈ signals_before w0 ∨ SIGTERM ∈ signals_during w0)) ∨
          code = 1 ∧ ∃ w0, w0 ∈ w :: wakes ∧ postmaster_death w0 = true
      end) as Hstep.
    { intros flags1 reloads1 Hf1. cbn zeta.
      specialize (IH (foldl deliver flags1 (signals_during w))
                     (RemoveExpiredEntries (sweep_time w) st) reloads1).
      cbn zeta in IH.
      destruct (worker_status_of _) as [|code].
      - destruct IH as (Hf2 & Hall & Hst). split; [done|].
        split; [by constructor | done].
      - destruct IH as [(-> & Hterm & Hwhy) | (-> & w0 & Hin & Hpm0)].
        + left. split; [done|]. split; [done|]. right.
          destruct Hwhy as [Hf2 | (w0 & Hin & Hs)].
          * apply deliver_sigterm_sticky in Hf2 as [Hf2 | Hin].
            -- rewrite Hf1 in Hf2.
               apply deliver_sigterm_sticky in Hf2 as [Hf2 | Hin]; [congruence|].
               exists w. split; [by left | by left].
            -- exists w. split; [by left | by right].
          * exists w0. split; [by right | done].
        + right. split; [done|]. exists w0. split; [by right | done]. }
    destruct (got_sighup (foldl deliver flags (signals_before w))); by apply Hstep.
Qed.

(** X11. The background worker exits with code 0 only after SIGTERM and
    with code 1 only after the death of the postmaster. Without either it
    keeps waiting, having swept once per wake-up; SIGHUP never ends it. A
    SIGTERM handled before the loop is entered ends it before any sweep. *)
Theorem worker_exit_status (startup : list signal) (wakes : list WakeUp)
    (st : Shmem * FileSystem) :
  let result := YbQueryDiagnosticsMain startup wakes st in
  (worker_status_of result = Waiting →
     Forall (λ w, postmaster_death w = false) wakes ∧
     worker_state result
       = foldl (λ st w, RemoveExpiredEntries (sweep_time w) st) st wakes) ∧
  (∀ code, worker_status_of result = Exited code →
     code = 0 ∧
       (SIGTERM ∈ startup ∨
        ∃ w, w ∈ wakes ∧ (SIGTERM ∈ signals_before w ∨ SIGTERM ∈ signals_during w))
     ∨ code = 1 ∧ ∃ w, w ∈ wakes ∧ postmaster_death w = true) ∧
  (SIGTERM ∉ startup →
   Forall (λ w, postmaster_death w = false ∧ no_sigterm w) wakes →
     worker_status_of result = Waiting) ∧
  (SIGTERM ∈ startup →
     worker_status_of result = Exited 0 ∧ worker_state result = st).
Proof.
  intros result.
  pose proof (loop_exit wakes
                (foldl deliver {| got_sigterm := false; got_sighup := false |} startup)
                st 0) as Hexit.
  cbn zeta in Hexit. fold (YbQueryDiagnosticsMain startup wakes st) in Hexit.
  fold result in Hexit.
  split; [|split; [|split]].
  - intros Hw. rewrite Hw in Hexit. by destruct Hexit as (_ & ? & ?).
  - intros code Hc. rewrite Hc in Hexit.
    destruct Hexit as [(-> & _ & [Hf | Hw]) | (-> & Hw)]; [| left; by auto | by right].
    apply deliver_sigterm_sticky in Hf as [Hf | Hin]; [done|]. left. by auto.
  - intros Hstart Hclean. destruct (worker_status_of result) as [|code]; [done|]. exfalso.
    rewrite Forall_forall in Hclean.
    destruct Hexit as [(-> & _ & [Hf | (w & Hin & Hs)]) | (-> & w & Hin & Hpm)].
    + apply deliver_sigterm_sticky in Hf as [Hf | Hin]; done.
    + destruct (Hclean w Hin) as (_ & Hs1 & Hs2). by destruct Hs.
    + destruct (Hclean w Hin) as (Hpm' & _). congruence.
  - intros Hstart. unfold result, YbQueryDiagnosticsMain. cbn zeta.
    assert (got_sigterm
              (foldl deliver {| got_sigterm := false; got_sighup := false |} startup)
            = true) as Hf by (by apply deliver_sigterm_arrives).
    destruct wakes; cbn [YbQueryDiagnosticsMain_loop]; by rewrite Hf.
Qed.

End WorkerRuns.

(** ** From the start of a bundle to its file *)

Section Lifecycle.
Context `{Host}.

Lemma begin_Ok (now : Z) (fcinfo : FunctionCallInfo) (sh : Shmem) (p : cstring) :
  (yb_query_diagnostics now fcinfo sh).2 = Ok p →
  let md := {| params := fetched_params fcinfo; start_time := now; path := p |} in
  YBIsQueryDiagnosticsEnabled = true ∧
  FetchParams fcinfo = Ok (fetched_params fcinfo) ∧
  ConstructDiagnosticsPath
    {| params := fetched_params fcinfo; start_time := now; path := [] |} = Ok md ∧
  bundles_in_progress sh !! PG_ARG0 fcinfo = None ∧
  hash_enter_room (bundles_in_progress sh) = true ∧
  (yb_query_diagnostics now fcinfo sh).1
    = set_in_progress (<[PG_ARG0 fcinfo := new_entry md]> (bundles_in_progress sh)) sh.
Proof.
  unfold yb_query_diagnostics.
  destruct YBIsQueryDiagnosticsEnabled; [|discriminate]. cbn [negb].
  destruct (FetchParams fcinfo) as [q|e] eqn:Hq; [|discriminate].
  destruct (FetchParams_Ok_valid _ _ Hq) as [_ ->]. fold (fetched_params fcinfo).
  destruct (ConstructDiagnosticsPath _) as [md|e] eqn:Hmd; [|discriminate].
  assert (md = {| params := fetched_params fcinfo; start_time := now; path := path md |})
    as Hmd'.
  { destruct (ConstructDiagnosticsPath_Ok _ _ Hmd) as [Hp Hs].
    cbn [params start_time] in Hp, Hs. rewrite <- Hp, <- Hs. by destruct md. }
  assert (query_id (params md) = PG_ARG0 fcinfo) as Hqid by (by rewrite Hmd').
  unfold InsertNewBundleInfo. rewrite Hqid.
  destruct (bundles_in_progress sh !! PG_ARG0 fcinfo) eqn:Hfound; [discriminate|].
  destruct (hash_enter_room _) eqn:Hroom; [|discriminate].
  cbn [fst snd]. intros [= <-]. cbn zeta. rewrite <- Hmd'. done.
Qed.

(** X12. [yb_query_diagnostics] succeeds exactly when the feature is
    enabled, the arguments are valid, the path fits, the query has no bundle
    in progress and the table has room. It then adds one entry for the query
    (empty buffer, the given parameters, the start time and the returned
    path), leaves the completed bundles alone, and the status report shows
    the bundle as [In Progress] with these values. *)
Theorem begin_registers_bundle (now : Z) (fcinfo : FunctionCallInfo) (sh : Shmem) :
  let run := yb_query_diagnostics now fcinfo sh in
  (is_error run.2 = false ↔
     YBIsQueryDiagnosticsEnabled = true ∧
     is_error (FetchParams fcinfo) = false ∧
     is_error (ConstructDiagnosticsPath
                 {| params := fetched_params fcinfo; start_time := now; path := [] |})
       = false ∧
     bundles_in_progress sh !! PG_ARG0 fcinfo = None ∧
     hash_enter_room (bundles_in_progress sh) = true) ∧
  ∀ p, run.2 = Ok p →
    let md := {| params := fetched_params fcinfo; start_time := now; path := p |} in
    bundles_in_progress run.1
      = <[PG_ARG0 fcinfo := new_entry md]> (bundles_in_progress sh) ∧
    bundles_completed run.1 = bundles_completed sh ∧
    ∀ rsinfo rows, yb_get_query_diagnostics_status rsinfo run.1 = Ok rows →
      {| row_status := lit "In Progress";
         row_description := [];
         row_query_id := PG_ARG0 fcinfo;
         row_start_time := now;
         row_diagnostics_interval_sec := PG_ARG1 fcinfo;
         row_bind_var_query_min_duration_ms := PG_ARG6 fcinfo;
         row_explain_params :=
           [ (lit "explain_sample_rate", jbvNumeric (PG_ARG2 fcinfo));
             (lit "explain_analyze", jbvBool (PG_ARG3 fcinfo));
             (lit "explain_dist", jbvBool (PG_ARG4 fcinfo));
             (lit "explain_debug", jbvBool (PG_ARG5 fcinfo)) ];
         row_path := p |} ∈ rows.
Proof.
  intros run. split.
  - split.
    + intros Hok. destruct run.2 as [p|e] eqn:Hrun; [|discriminate].
      destruct (begin_Ok now fcinfo sh p Hrun) as (He & Hf & Hc & Hk & Hroom & _).
      rewrite Hf, Hc. done.
    + intros (He & Hf & Hc & Hk & Hroom). unfold run, yb_query_diagnostics.
      rewrite He. cbn [negb].
      destruct (FetchParams fcinfo) as [q|e] eqn:Hq; [|discriminate].
      destruct (FetchParams_Ok_valid _ _ Hq) as [_ ->]. fold (fetched_params fcinfo).
      destruct (ConstructDiagnosticsPath _) as [md|e] eqn:Hmd; [|discriminate].
      destruct (ConstructDiagnosticsPath_Ok _ _ Hmd) as [Hp _]. simpl in Hp.
      unfold InsertNewBundleInfo. rewrite Hp. cbn [query_id fetched_params].
      by rewrite Hk, Hroom.
  - intros p Hrun md.
    destruct (begin_Ok now fcinfo sh p Hrun) as (He & _ & _ & _ & _ & Hsh).
    fold run in Hsh. fold md in Hsh. rewrite Hsh.
    split; [done|]. split; [done|].
    intros rsinfo rows. unfold yb_get_query_diagnostics_status. rewrite He. cbn [negb].
    destruct (rsinfo_is_set rsinfo); [|discriminate].
    destruct (allows_materialize rsinfo); [|discriminate].
    destruct (result_is_composite rsinfo); [|discriminate].
    cbn [negb]. intros [= <-]. apply elem_of_app. left.
    unfold ProcessActiveBundles. apply list_elem_of_fmap.
    exists (PG_ARG0 fcinfo, new_entry md). split; [reflexivity|].
    apply hash_seq_lookup. cbn [set_in_progress bundles_in_progress].
    apply lookup_insert_eq.
Qed.

(** X13. A bundle started at [now] with an interval of [n] seconds survives
    every sweep before [now + n * 1000000] microseconds and is removed by
    any sweep at or after that time (as long as the sum fits int64). *)
Theorem new_bundle_lives_for_its_interval (now now' : Z) (fcinfo : FunctionCallInfo)
    (sh : Shmem) (fs : FileSystem) (p : cstring) :
  table_wf (bundles_in_progress sh) →
  (yb_query_diagnostics now fcinfo sh).2 = Ok p →
  in_int64 (PG_ARG1 fcinfo * USECS_PER_SEC) →
  in_int64 (now + PG_ARG1 fcinfo * USECS_PER_SEC) →
  let started := (yb_query_diagnostics now fcinfo sh).1 in
  let swept := (RemoveExpiredEntries now' (started, fs)).1 in
  now < now + PG_ARG1 fcinfo * USECS_PER_SEC ∧
  (now' < now + PG_ARG1 fcinfo * USECS_PER_SEC →
   bundles_in_progress swept !! PG_ARG0 fcinfo
     = bundles_in_progress started !! PG_ARG0 fcinfo ∧
   is_Some (bundles_in_progress swept !! PG_ARG0 fcinfo)) ∧
  (now + PG_ARG1 fcinfo * USECS_PER_SEC ≤ now' →
   bundles_in_progress swept !! PG_ARG0 fcinfo = None).
Proof.
  intros Hwf Hrun Hr1 Hr2 started swept.
  destruct (begin_Ok now fcinfo sh p Hrun) as (_ & Hf & _ & _ & _ & Hsh).
  destruct (FetchParams_Ok_valid _ _ Hf) as [(_ & Hpos & _) _]. simpl in Hpos.
  set (md := {| params := fetched_params fcinfo; start_time := now; path := p |}) in *.
  assert (table_wf (bundles_in_progress started)) as Hwf1.
  { unfold started. by apply table_wf_begin. }
  assert (bundles_in_progress started !! PG_ARG0 fcinfo = Some (new_entry md)) as Hk.
  { unfold started. rewrite Hsh. apply lookup_insert_eq. }
  destruct (sweep_table now' started fs Hwf1) as [Hentries _].
  destruct (Hentries _ _ Hk) as [Hgone Hkept].
  assert (HasBundleExpired (new_entry md) now' = true ↔
          now + PG_ARG1 fcinfo * USECS_PER_SEC ≤ now') as Hexact.
  { exact (HasBundleExpired_exact (new_entry md) now' Hr1 Hr2). }
  split; [unfold USECS_PER_SEC; lia|]. split.
  - intros Hlt. fold swept in Hkept. rewrite Hk, Hkept; [by split|].
    apply not_true_is_false. intros He%Hexact. lia.
  - intros Hge. apply Hgone. by apply Hexact.
Qed.





End Lifecycle.

(** ** The path of a bundle *)

Section Paths.
Context `{Host}.

(** X15. The path that [yb_query_diagnostics] returns is
    [DataDir/query-diagnostics/<query id>/<hash of the start time>/], has no
    NUL and is shorter than [MAXPGPATH], so the file name built from it by
    [DumpToFile] is never truncated. A longer path is rejected with
    [ERRCODE_PROGRAM_LIMIT_EXCEEDED] and shared memory is left unchanged. *)
Theorem bundle_path_fits (now : Z) (fcinfo : FunctionCallInfo) (sh : Shmem) :
  let formatted :=
    c_str DataDir ++ lit "/query-diagnostics/" ++ fmt_d (PG_ARG0 fcinfo) ++ lit "/" ++
    fmt_d (to_int32 (to_uint32 (hash_any (int64_bytes now)))) ++ lit "/" in
  (YBIsQueryDiagnosticsEnabled = true →
   is_error (FetchParams fcinfo) = false →
   (MAXPGPATH ≤ length formatted)%nat →
   (yb_query_diagnostics now fcinfo sh).1 = sh ∧
   raises (yb_query_diagnostics now fcinfo sh).2 ERRCODE_PROGRAM_LIMIT_EXCEEDED) ∧
  (∀ p, (yb_query_diagnostics now fcinfo sh).2 = Ok p →
     p = formatted ∧ no_nul p ∧ (length p < MAXPGPATH)%nat ∧
     dump_path p = bind_variables_file p).
Proof.
  intros formatted. split.
  - intros He Hf Hlong. unfold yb_query_diagnostics. rewrite He. cbn [negb].
    destruct (FetchParams fcinfo) as [q|e] eqn:Hq; [|discriminate].
    destruct (FetchParams_Ok_valid _ _ Hq) as [_ ->].
    unfold ConstructDiagnosticsPath. cbn [params start_time query_id].
    rewrite bool_decide_eq_true_2 by exact Hlong.
    split; [done|]. eexists. reflexivity.
  - intros p Hrun.
    destruct (begin_Ok now fcinfo sh p Hrun) as (_ & _ & Hc & _).
    destruct (ConstructDiagnosticsPath_Ok_path _ _ Hc) as (Hnn & Hlen & Hp).
    cbn [path params start_time fetched_params query_id] in Hnn, Hlen, Hp.
    split; [exact Hp|]. split; [done|]. split; [done|].
    unfold dump_path.
    change (p ++ lit "/" ++ lit "bind_variables.csv") with (bind_variables_file p).
    apply snprintf_fits; unfold bind_variables_file.
    + apply no_nul_app; [done | by repeat constructor].
    + rewrite length_app. simpl. lia.
Qed.

End Paths.

(** ** Sample runs of the properties *)

Lemma duplicate_begin_rejected_witness :
  ∃ e, @yb_query_diagnostics (sample_host 4 true) 7 (sample_fcinfo 42) (sample_active 4 42)
         = (sample_active 4 42, Raise e) ∧
       sqlerrcode e = ERRCODE_DUPLICATE_OBJECT.
Proof.
  edestruct (@duplicate_begin_rejected (sample_host 4 true) 7 (sample_fcinfo 42)
               (sample_active 4 42)) as [_ (e & sh' & Hrun & -> & _ & Hcode)].
  { vm_compute. reflexivity. }
  exists e. split; [exact Hrun|].
  eapply Hcode; [reflexivity | vm_compute; reflexivity | vm_compute; reflexivity].
Defined.

Lemma begin_validates_arguments_witness :
  ∃ e, @yb_query_diagnostics (sample_host 4 true) 7 (sample_fcinfo 0) (sample_init 4)
         = (sample_init 4, Raise e) ∧
       sqlerrcode e = ERRCODE_INVALID_PARAMETER_VALUE.
Proof.
  destruct (@begin_validates_arguments (sample_host 4 true) 7 (sample_fcinfo 0)
              (sample_init 4)) as (_ & _ & Hrun & _).
  destruct Hrun as (e & Hrun & Hcode); [reflexivity|].
  exists e. split; [exact Hrun | by apply Hcode].
Defined.

Lemma storage_path_deterministic_witness :
  ∃ p1 p2,
    (@yb_query_diagnostics (sample_host 4 true) 7 (sample_fcinfo 42) (sample_init 4)).2
      = Ok p1 ∧
    (@yb_query_diagnostics (sample_host 4 true) 7
       (with_sample_rate 77 (sample_fcinfo 42)) (sample_active 4 43)).2 = Ok p2 ∧
    p1 = p2.
Proof.
  edestruct (@storage_path_deterministic (sample_host 4 true) 7 (sample_fcinfo 42)
               (with_sample_rate 77 (sample_fcinfo 42))
               (sample_init 4) (sample_active 4 43)) as [Heq _];
    [reflexivity | vm_compute; reflexivity | vm_compute; reflexivity |].
  do 2 eexists. split; [vm_compute; reflexivity|]. split; [vm_compute; reflexivity|].
  exact Heq.
Defined.

(** The number of slots follows the [int] product of the configured size:
    4 kB give 3 slots; 2097152 kB make the product negative, 4194304 kB make
    it 0, and 4194368 kB leave 65536 bytes, that is 54 slots. *)
Example CircularBufferMaxEntries_wraps :
  @CircularBufferMaxEntries (sample_host 4 true) = 3 ∧
  @CircularBufferMaxEntries (sample_host 2097152 true) = -2135039621 ∧
  @CircularBufferMaxEntries (sample_host 4194304 true) = 0 ∧
  @CircularBufferMaxEntries (sample_host 4194368 true) = 54.
Proof. repeat split. Qed.

Lemma ring_wf_sample : ring_wf (bundles_completed (sample_init 4)).
Proof. vm_compute. repeat split; (discriminate || reflexivity). Qed.

Lemma ring_report_after_wraparound_witness :
  let cs := sample_completed <$> [1; 2; 3; 4] in
  without_description <$>
    ProcessCompletedBundles (insert_all_completed (bundles_completed (sample_init 4)) cs)
  = without_description <$> (completed_row <$> (sample_completed <$> [4; 2; 3])).
Proof.
  intros cs.
  destruct (ring_report_after_wraparound (bundles_completed (sample_init 4)) cs)
    as (Hrows & _ & _).
  - exact ring_wf_sample.
  - reflexivity.
  - unfold cs. repeat constructor; discriminate.
  - exact Hrows.
Defined.

Lemma ring_report_not_in_recency_order :
  let cs := sample_completed <$> [1; 2; 3; 4] in
  let rows :=
    ProcessCompletedBundles
      (insert_all_completed (bundles_completed (sample_init 4)) cs) in
  row_query_id <$> rows = [4; 2; 3] ∧
  rows ≠ completed_row <$> (sample_completed <$> [2; 3; 4]) ∧
  rows ≠ completed_row <$> (sample_completed <$> [4; 3; 2]).
Proof.
  vm_compute. split; [reflexivity|]. split; discriminate.
Qed.

(** C3 (code defect). [FormatParams] appends no comma after NULL. For the
    parameters (NULL, 1) and an elapsed time of 12.3 ms the line is
    NULL1,12.300000 where the comma-separated rendering of the
    specification is NULL,1,12.300000, and that line is what the executor
    hook leaves in the buffer of the bundle. For the parameters (1, a) the
    line is 1,a,12.300000, as the specification has it. *)
Theorem null_parameter_not_separated :
  let host := sample_host 4 true in
  let ps := [null_param; int4_param 1] in
  @bind_variables_line host double_12_3 ps = lit "NULL1,12.300000" ++ [LF] ∧
  @spec_bind_variables_line host double_12_3 ps = lit "NULL,1,12.300000" ++ [LF] ∧
  (c_str ∘ bind_vars) <$>
    bundles_in_progress
      (@ExecutorEnd_state host (sample_queryDesc 42 ps) (sample_active 4 42)) !! 42
    = Some (lit "NULL1,12.300000" ++ [LF]) ∧
  @bind_variables_line host double_12_3 [int4_param 1; text_param_a]
    = lit "1,a,12.300000" ++ [LF].
Proof. vm_compute. repeat split; reflexivity. Qed.

(** C4 (code defect). [InsertCompletedBundleInfo] copies the description
    without its terminator, so a slot keeps what is left of the description
    it held before. A circular buffer of two slots holds a failed bundle
    and a bundle without data; the bundle of query 42 gets one sample,
    expires and is written to its file, so it finishes with status success
    and an empty description, and takes the slot of the failed bundle. The
    status report then shows it with the description of the failed
    bundle. *)
Theorem completed_description_keeps_stale_text :
  let host := sample_host 3 true in
  let before :=
    set_completed
      (insert_all_completed (bundles_completed (sample_init 3))
         [failed_completed 1; sample_completed 2])
      (sample_active 3 42) in
  let sampled :=
    @ExecutorEnd_state host (sample_queryDesc 42 [int4_param 1; text_param_a]) before in
  let swept := @RemoveExpiredEntries host five_seconds (sampled, ∅) in
  let file := lit "/pgdata/query-diagnostics/42/232720647//bind_variables.csv" in
  swept.2 !! file = Some (lit "1,a,12.300000" ++ [LF]) ∧
  bundles_in_progress swept.1 = ∅ ∧
  ∃ rows, @yb_get_query_diagnostics_status host sample_rsinfo swept.1 = Ok rows ∧
    row_query_id <$> rows = [42; 2] ∧
    row_status <$> rows = [lit "Success"; lit "Success"] ∧
    row_description <$> rows =
      [lit "Failed to create query diagnostics directory"; lit "No data captured"].
Proof.
  vm_compute. split; [reflexivity|]. split; [reflexivity|].
  eexists. split; [reflexivity|]. repeat split; reflexivity.
Qed.

Lemma empty_bundle_outcome_witness :
  let host := sample_host 4 true in
  let entry := @new_entry host (sample_metadata 42 0) in
  let st' := @RemoveExpiredEntry host five_seconds (sample_init 4, ∅) entry in
  st'.2 = ∅ ∧
  ∃ b, bundles (bundles_completed st'.1) !! 0%nat = Some b ∧
       bundle_status b = DIAGNOSTICS_SUCCESS.
Proof.
  intros host entry st'.
  destruct (@empty_bundle_outcome host entry five_seconds (sample_init 4) ∅)
    as [_ Hsweep]; [vm_compute; reflexivity|].
  destruct Hsweep as (Hfs & _ & Hslot); [reflexivity | reflexivity |].
  split; [exact Hfs|].
  destruct (Hslot ring_wf_sample) as (b & Hb & _ & Hstatus).
  exists b. split; [exact Hb | exact Hstatus].
Defined.

Lemma empty_bundle_recorded_as_error :
  let host := sample_host 4 false in
  let entry := @new_entry host (sample_metadata 42 0) in
  let sh := set_in_progress {[ 42 := entry ]} (sample_init 4) in
  let swept := @RemoveExpiredEntries host five_seconds (sh, ∅) in
  c_str (bind_vars entry) = [] ∧
  bundles_in_progress swept.1 = ∅ ∧
  ∃ b, bundles (bundles_completed swept.1) !! 0%nat = Some b ∧
       bundle_status b = DIAGNOSTICS_ERROR ∧
       bundle_status b ≠ DIAGNOSTICS_SUCCESS ∧
       c_str (bundle_description b) = lit "Failed to create query diagnostics directory".
Proof.
  vm_compute. split; [reflexivity|]. split; [reflexivity|].
  eexists. split; [reflexivity|]. repeat split; (reflexivity || discriminate).
Qed.


(** With a buffer of 40 bytes: two lines of 14 characters are accepted, a
    third one and a line of 12 characters are dropped, and a later line of
    10 characters still fits. *)
Example smaller_sample_accepted_after_drop :
  let host := small_buffer_host 40 in
  let s1 : sample := (double_12_3, [int4_param 1; text_param_a]) in
  let s2 : sample := (double_12_3, [int4_param 2]) in
  let s3 : sample := (double_12_3, []) in
  c_str (bind_vars
           (@accumulate_all host (@new_entry host (sample_metadata 42 0))
              [s1; s1; s1; s2; s3]))
  = lit "1,a,12.300000" ++ [LF] ++ lit "1,a,12.300000" ++ [LF] ++ lit "12.300000" ++ [LF].
Proof. vm_compute. reflexivity. Qed.

Lemma table_wf_sample : table_wf (bundles_in_progress (sample_active 4 42)).
Proof. apply table_wf_begin, table_wf_init. Qed.




Lemma format_under_shared_table_lock_witness :
  let host := sample_host 4 true in
  let trace :=
    (@YbQueryDiagnostics_ExecutorEnd host
       (sample_queryDesc 42 [int4_param 1; text_param_a]) (sample_active 4 42)).2 in
  trace !! 3%nat = Some EvFormatParams ∧
  locks_held (take 3 trace) = [(bundles_in_progress_lock, LW_SHARED)].
Proof.
  intros host trace. split; [reflexivity|].
  apply (@format_under_shared_table_lock host
           (sample_queryDesc 42 [int4_param 1; text_param_a]) (sample_active 4 42) 3).
  reflexivity.
Defined.

Lemma format_holds_table_lock :
  let host := sample_host 4 true in
  let trace :=
    (@YbQueryDiagnostics_ExecutorEnd host
       (sample_queryDesc 42 [int4_param 1; text_param_a]) (sample_active 4 42)).2 in
  trace !! 3%nat = Some EvFormatParams ∧
  locks_held (take 3 trace) ≠ [] ∧
  (bundles_in_progress_lock, LW_SHARED) ∈ locks_held (take 3 trace).
Proof.
  vm_compute. split; [reflexivity|]. split; [discriminate|]. left.
Qed.

(** ** Sample runs of the further properties *)

Lemma sample_active_table :
  bundles_in_progress (sample_active 4 42) = <[42 := sample_entry]> ∅.
Proof. vm_compute. reflexivity. Qed.

Lemma sample_active_lookup :
  bundles_in_progress (sample_active 4 42) !! 42 = Some sample_entry.
Proof. rewrite sample_active_table. apply lookup_insert_eq. Qed.

Lemma entries_stay_well_formed_witness :
  @table_ok (sample_host 4 true) (bundles_in_progress (sample_active 4 42)).
Proof.
  assert (0 < @YB_QD_MAX_BIND_VARS_LEN (sample_host 4 true))%nat as Hpos
    by (vm_compute; lia).
  destruct (@entries_stay_well_formed (sample_host 4 true) (sample_init 4) Hpos)
    as [Hinit Hkept].
  destruct (Hkept Hinit) as (Hbegin & _).
  exact (Hbegin 0 (sample_fcinfo 42)).
Defined.

Lemma completed_ring_stays_well_formed_witness :
  ring_ok (bundles_completed
             (@RemoveExpiredEntries (sample_host 4 true) five_seconds
                (sample_active 4 42, ∅)).1).
Proof.
  destruct (@completed_ring_stays_well_formed (sample_host 4 true) (sample_init 4))
    as (Hinit & Hbegin & _ & _).
  destruct (@completed_ring_stays_well_formed (sample_host 4 true) (sample_active 4 42))
    as (_ & _ & _ & Hkept).
  apply Hkept. unfold sample_active. rewrite Hbegin. apply Hinit. reflexivity.
Defined.

Lemma fresh_ring_reports_insertions_witness :
  @ProcessCompletedBundles
    (insert_all_completed (bundles_completed (sample_init 4))
       [failed_completed 1; sample_completed 2])
  = completed_row <$> [failed_completed 1; sample_completed 2].
Proof.
  apply (@fresh_ring_reports_insertions (sample_host 4 true)).
  - reflexivity.
  - vm_compute. lia.
  - repeat constructor; try discriminate; vm_compute; lia.
Defined.

Lemma status_report_structure_witness :
  ∃ active completed,
    @yb_get_query_diagnostics_status (sample_host 4 true) sample_rsinfo (sample_active 4 42)
      = Ok (active ++ completed) ∧
    length active = 1%nat ∧ row_query_id <$> active ≡ₚ [42] ∧ completed = [].
Proof.
  destruct (@status_report_structure (sample_host 4 true) sample_rsinfo (sample_active 4 42))
    as [Hok Hrows].
  assert (is_error (@yb_get_query_diagnostics_status (sample_host 4 true) sample_rsinfo
                      (sample_active 4 42)) = false) as Hrun
    by (apply Hok; vm_compute; done).
  destruct (@yb_get_query_diagnostics_status (sample_host 4 true) sample_rsinfo
              (sample_active 4 42)) as [rows|e] eqn:Hstatus; [|discriminate].
  destruct (Hrows rows eq_refl) as (active & completed & -> & Hlen & _ & Hids & Hmax & Hnz).
  exists active, completed. split; [done|].
  rewrite sample_active_table in Hlen. vm_compute in Hlen.
  split; [done|]. split.
  - rewrite Hids by apply table_wf_sample.
    rewrite sample_active_table. vm_compute. done.
  - destruct active as [|r1 [|r2 active]]; try discriminate.
    vm_compute in Hstatus. destruct completed; [done|]. discriminate.
Defined.

Lemma hook_only_appends_to_its_bundle_witness :
  ∃ entry',
    bundles_in_progress
      (@ExecutorEnd_state (sample_host 4 true)
         (sample_queryDesc 42 [int4_param 1; text_param_a]) (sample_active 4 42)) !! 42
      = Some entry' ∧
    metadata entry' = metadata sample_entry ∧
    c_str (bind_vars entry') = lit "1,a,12.300000" ++ [LF].
Proof.
  destruct (@hook_only_appends_to_its_bundle (sample_host 4 true)
              (sample_queryDesc 42 [int4_param 1; text_param_a]) (sample_active 4 42))
    as (_ & _ & _ & _ & _ & _ & Happend).
  destruct (Happend sample_entry [] sample_active_lookup) as (entry' & Hk & Hmd & Hbuf).
  { vm_compute. repeat split; try lia. repeat constructor. }
  exists entry'. split; [exact Hk|]. split; [exact Hmd|].
  vm_compute in Hk. injection Hk as <-. vm_compute. reflexivity.
Defined.

Lemma hook_lock_discipline_witness :
  locks_held
    (@YbQueryDiagnostics_ExecutorEnd (sample_host 4 true)
       (sample_queryDesc 42 [int4_param 1]) (sample_active 4 42)).2 = [].
Proof.
  exact (proj1 (@hook_lock_discipline (sample_host 4 true)
                  (sample_queryDesc 42 [int4_param 1]) (sample_active 4 42))).
Defined.

Lemma sweep_is_idempotent_witness :
  @RemoveExpiredEntries (sample_host 4 true) five_seconds
    (@RemoveExpiredEntries (sample_host 4 true) five_seconds (sample_active 4 42, ∅))
  = @RemoveExpiredEntries (sample_host 4 true) five_seconds (sample_active 4 42, ∅).
Proof.
  apply (@sweep_is_idempotent (sample_host 4 true) five_seconds five_seconds).
  - apply table_wf_sample.
  - lia.
Defined.

Lemma sweep_writes_only_bundle_files_witness :
  (@RemoveExpiredEntries (sample_host 4 true) five_seconds
     (@ExecutorEnd_state (sample_host 4 true) (sample_queryDesc 42 [int4_param 1])
        (sample_active 4 42),
      {[ lit "/pgdata/postgresql.conf" := lit "port = 5433" ]})).2
    !! lit "/pgdata/postgresql.conf"
  = Some (lit "port = 5433").
Proof.
  rewrite (@sweep_writes_only_bundle_files (sample_host 4 true)).
  - reflexivity.
  - intros k entry Hk (_ & _ & _ & _ & Hf).
    destruct (decide (k = 42)) as [->|Hne].
    + vm_compute in Hk. injection Hk as <-. vm_compute in Hf. discriminate.
    + assert (bundles_in_progress
                (@ExecutorEnd_state (sample_host 4 true)
                   (sample_queryDesc 42 [int4_param 1]) (sample_active 4 42)) !! k
              = bundles_in_progress (sample_active 4 42) !! k) as Hsame.
      { rewrite (@ExecutorEnd_state_accumulates (sample_host 4 true)
                   (sample_queryDesc 42 [int4_param 1]) (sample_active 4 42) sample_entry
                   [int4_param 1] sample_active_lookup eq_refl eq_refl).
        cbn [set_in_progress bundles_in_progress]. by rewrite lookup_insert_ne. }
      rewrite Hsame, sample_active_table, lookup_insert_ne, lookup_empty in Hk; done.
Defined.

Lemma DumpToFile_outcomes_witness :
  let result :=
    @DumpToFile (sample_host 4 true) (lit "/pgdata/query-diagnostics/42/7/")
      (lit "bind_variables.csv") (lit "1,a,12.300000" ++ [LF; NUL; NUL]) [] ∅ in
  result.1.2 = DIAGNOSTICS_SUCCESS ∧
  result.1.1 !! @dump_path (sample_host 4 true) (lit "/pgdata/query-diagnostics/42/7/")
    = Some (lit "1,a,12.300000" ++ [LF]).
Proof.
  assert (c_str (lit "1,a,12.300000" ++ [LF; NUL; NUL]) ≠ []) as Hdata
    by (vm_compute; discriminate).
  destruct (@DumpToFile_outcomes (sample_host 4 true)
              (lit "/pgdata/query-diagnostics/42/7/")
              (lit "1,a,12.300000" ++ [LF; NUL; NUL]) ∅ Hdata)
    as (_ & _ & _ & _ & _ & _ & _ & Hwritten).
  exact (Hwritten 14%nat eq_refl eq_refl).
Defined.

Lemma worker_removes_expired_bundles_witness :
  bundles_in_progress
    (worker_state
       (@YbQueryDiagnosticsMain (sample_host 4 true) [SIGHUP] sample_wakes
          (sample_active 4 42, ∅))).1 !! 42 = None.
Proof.
  destruct (@worker_removes_expired_bundles (sample_host 4 true) [SIGHUP] sample_wakes
              (sample_active 4 42) ∅ 42 sample_entry table_wf_sample sample_active_lookup)
    as (_ & Hremoved & _).
  apply (Hremoved [ {| signals_before := [SIGHUP]; postmaster_death := false;
                       sweep_time := 1000000; signals_during := [] |} ]
           (quiet_wake five_seconds) []).
  - by intros [?|?%elem_of_nil]%elem_of_cons.
  - reflexivity.
  - repeat constructor; cbn; intros Hin.
    + by apply elem_of_cons in Hin as [?|?%elem_of_nil].
    + by apply elem_of_nil in Hin.
  - reflexivity.
  - reflexivity.
Defined.

Lemma worker_exit_status_witness :
  worker_status_of
    (@YbQueryDiagnosticsMain (sample_host 4 true) [SIGHUP] sample_wakes
       (sample_active 4 42, ∅)) = Waiting.
Proof.
  destruct (@worker_exit_status (sample_host 4 true) [SIGHUP] sample_wakes
              (sample_active 4 42, ∅)) as (_ & _ & Hwaits & _).
  apply Hwaits.
  - by intros [?|?%elem_of_nil]%elem_of_cons.
  - repeat constructor; cbn; intros Hin.
    + by apply elem_of_cons in Hin as [?|?%elem_of_nil].
    + by apply elem_of_nil in Hin.
    + by apply elem_of_nil in Hin.
    + by apply elem_of_nil in Hin.
Defined.

Lemma begin_registers_bundle_witness :
  bundles_in_progress
    (@yb_query_diagnostics (sample_host 4 true) 0 (sample_fcinfo 42) (sample_init 4)).1
  = <[42 := sample_entry]> (bundles_in_progress (sample_init 4)).
Proof.
  destruct (@begin_registers_bundle (sample_host 4 true) 0 (sample_fcinfo 42) (sample_init 4))
    as [_ Hadded].
  destruct (Hadded (lit "/pgdata/query-diagnostics/42/232720647/") eq_refl) as (Htable & _).
  exact Htable.
Defined.

Lemma new_bundle_lives_for_its_interval_witness :
  is_Some (bundles_in_progress
             (@RemoveExpiredEntries (sample_host 4 true) 4999999 (sample_active 4 42, ∅)).1
           !! 42) ∧
  bundles_in_progress
    (@RemoveExpiredEntries (sample_host 4 true) 5000000 (sample_active 4 42, ∅)).1 !! 42
  = None.
Proof.
  assert (table_wf (bundles_in_progress (sample_init 4))) as Hwf
    by (intros k e Hk; vm_compute in Hk; discriminate).
  assert (in_int64 (5 * USECS_PER_SEC)) as Hr1 by (unfold in_int64, USECS_PER_SEC; lia).
  assert (in_int64 (0 + 5 * USECS_PER_SEC)) as Hr2 by (unfold in_int64, USECS_PER_SEC; lia).
  split.
  - destruct (@new_bundle_lives_for_its_interval (sample_host 4 true) 0 4999999
                (sample_fcinfo 42) (sample_init 4) ∅
                (lit "/pgdata/query-diagnostics/42/232720647/") Hwf eq_refl Hr1 Hr2)
      as (_ & Hbefore & _).
    apply Hbefore. vm_compute. reflexivity.
  - destruct (@new_bundle_lives_for_its_interval (sample_host 4 true) 0 5000000
                (sample_fcinfo 42) (sample_init 4) ∅
                (lit "/pgdata/query-diagnostics/42/232720647/") Hwf eq_refl Hr1 Hr2)
      as (_ & _ & Hafter).
    apply Hafter. vm_compute. discriminate.
Defined.


Lemma bundle_path_fits_witness :
  @dump_path (sample_host 4 true) (lit "/pgdata/query-diagnostics/42/232720647/")
  = bind_variables_file (lit "/pgdata/query-diagnostics/42/232720647/").
Proof.
  destruct (@bundle_path_fits (sample_host 4 true) 0 (sample_fcinfo 42) (sample_init 4))
    as [_ Hfits].
  destruct (Hfits (lit "/pgdata/query-diagnostics/42/232720647/") eq_refl)
    as (_ & _ & _ & Hfile).
  exact Hfile.
Defined.
